(** * Subtitle-Merger: the SRT merge pipeline of [app.py]

    A shallow embedding of [src/app.py] and [src/utils/common.py] and the
    properties of the time codec, the parser, the filters and the three
    merge stages.

    Modelling conventions.
    - A Python [str] is a [string]; a character is a code point below 256
      (the Latin-1 range).  The library predicates on characters
      ([str.isspace], [str.isdigit], the regular-expression class [\d],
      [str.lower], the line boundaries of [str.splitlines]) are written out
      for exactly that range.
    - A Python [int] is a [Z]; list positions and counters that the code
      only ever increments from 0 or 1 are [nat].
    - A raised exception is the [Raise] outcome of [result]; the loops
      [while ...] carry a fuel argument whose exhaustion is the distinct
      outcome [NoFuel], never confused with a returned value.
    - A subtitle entry is a dictionary with optional keys
      ([TypedDict(total=False)]): every field is an [option], and
      [entry['k']] on an absent key raises [KeyError].
    - The options dictionary is read through [options.get(key, default)]
      only: it is the record [options] of the values so obtained.
    - Floating-point numbers are the binary64 floats of [PrimFloat]. *)

From Stdlib Require Import ZArith List String Ascii Bool Lia.
From Stdlib Require Import PrimFloat DecimalString DecimalN.
Import ListNotations.

Local Open Scope string_scope.
Local Open Scope list_scope.

(** ** Outcomes of a call *)

Inductive exn : Type :=
| ValueError
| KeyError
| IndexError.

Inductive result (A : Type) : Type :=
| Ok (a : A)
| Raise (e : exn)
| NoFuel.

Arguments Ok {A} a.
Arguments Raise {A} e.
Arguments NoFuel {A}.

Definition bind {A B : Type} (c : result A) (k : A -> result B) : result B :=
  match c with
  | Ok a => k a
  | Raise e => Raise e
  | NoFuel => NoFuel
  end.

Declare Scope py_scope.
Delimit Scope py_scope with py.
Notation "x <- c ;; k" := (bind c (fun x => k))
  (at level 61, c at next level, right associativity) : py_scope.
Notation "' p <- c ;; k" := (bind c (fun x => let p := x in k))
  (at level 61, p pattern, c at next level, right associativity) : py_scope.
Local Open Scope py_scope.

(** [d[key]] on a dictionary whose key may be absent. *)
Definition getitem {A : Type} (o : option A) : result A :=
  match o with
  | Some v => Ok v
  | None => Raise KeyError
  end.

(** [l[i]] on a list. *)
Definition list_index {A : Type} (l : list A) (i : nat) : result A :=
  match nth_error l i with
  | Some v => Ok v
  | None => Raise IndexError
  end.

(** ** The [str] methods the program calls *)

Module Py.

Definition code (c : ascii) : nat := nat_of_ascii c.

(** [\d] and [[0-9]]: below 256 the only decimal digits are ASCII. *)
Definition is_decimal (c : ascii) : bool :=
  (48 <=? code c)%nat && (code c <=? 57)%nat.

(** [str.isdigit] on one character: the decimal digits and the superscripts
    two, three and one. *)
Definition is_digit_char (c : ascii) : bool :=
  is_decimal c || (code c =? 178)%nat || (code c =? 179)%nat
  || (code c =? 185)%nat.

(** [str.isspace] on one character. *)
Definition is_space (c : ascii) : bool :=
  ((9 <=? code c)%nat && (code c <=? 13)%nat)
  || ((28 <=? code c)%nat && (code c <=? 32)%nat)
  || (code c =? 133)%nat || (code c =? 160)%nat.

Definition digit_val (c : ascii) : Z := Z.of_nat (code c) - 48.

Fixpoint all_chars (p : ascii -> bool) (s : string) : bool :=
  match s with
  | EmptyString => true
  | String c s' => p c && all_chars p s'
  end.

(** [s.isdigit()]. *)
Definition isdigit (s : string) : bool :=
  match s with
  | EmptyString => false
  | _ => all_chars is_digit_char s
  end.

(** The value of a string of decimal digits, most significant first. *)
Fixpoint decimal_value (acc : Z) (s : string) : Z :=
  match s with
  | EmptyString => acc
  | String c s' => decimal_value (10 * acc + digit_val c) s'
  end.

(** [int(s)] for a string without sign, blanks or underscores: every
    character must be a decimal digit.  The interpreter's limit on the
    number of digits of a literal is not modelled. *)
Definition int_of_str (s : string) : result Z :=
  match s with
  | EmptyString => Raise ValueError
  | _ => if all_chars is_decimal s then Ok (decimal_value 0 s)
         else Raise ValueError
  end.

Fixpoint lstrip (s : string) : string :=
  match s with
  | EmptyString => EmptyString
  | String c s' => if is_space c then lstrip s' else s
  end.

Fixpoint rstrip (s : string) : string :=
  match s with
  | EmptyString => EmptyString
  | String c s' =>
      match rstrip s' with
      | EmptyString => if is_space c then EmptyString else String c EmptyString
      | r => String c r
      end
  end.

(** [s.strip()]. *)
Definition strip (s : string) : string := rstrip (lstrip s).

Definition starts_word (s : string) : bool :=
  match s with
  | EmptyString => false
  | String c _ => negb (is_space c)
  end.

(** [s.split()]: the maximal runs of non-blank characters, in order. *)
Fixpoint split_ws (s : string) : list string :=
  match s with
  | EmptyString => []
  | String c s' =>
      if is_space c then split_ws s'
      else if starts_word s' then
             match split_ws s' with
             | t :: ts => String c t :: ts
             | [] => [String c EmptyString]
             end
           else String c EmptyString :: split_ws s'
  end.

(** [sep.join(parts)]. *)
Definition join (sep : string) (parts : list string) : string :=
  String.concat sep parts.

(** [s.startswith(p)]. *)
Definition startswith (p s : string) : bool := String.prefix p s.

Fixpoint endswith_char (c : ascii) (s : string) : bool :=
  match s with
  | EmptyString => false
  | String d EmptyString => Ascii.eqb c d
  | String _ s' => endswith_char c s'
  end.

(** [s.count(w)]: occurrences found scanning left to right, the search
    resuming after each occurrence.  [skip] is the number of characters
    still covered by the last occurrence. *)
Fixpoint count_from (w s : string) (skip : nat) : nat :=
  match s with
  | EmptyString => 0
  | String _ s' =>
      match skip with
      | S k => count_from w s' k
      | O => if String.prefix w s
             then S (count_from w s' (String.length w - 1))
             else count_from w s' 0
      end
  end.

Definition count (w s : string) : nat :=
  match w with
  | EmptyString => S (String.length s)
  | _ => count_from w s 0
  end.

(** [w in s]. *)
Fixpoint contains (w s : string) : bool :=
  String.prefix w s ||
  match s with
  | EmptyString => false
  | String _ s' => contains w s'
  end.

(** [s.split(sep)] for a non-empty separator. *)
Fixpoint split_on_from (sep s cur : string) (skip : nat) : list string :=
  match s with
  | EmptyString => [cur]
  | String c s' =>
      match skip with
      | S k => split_on_from sep s' cur k
      | O => if String.prefix sep s
             then cur :: split_on_from sep s' EmptyString (String.length sep - 1)
             else split_on_from sep s' (cur ++ String c EmptyString) 0
      end
  end.

Definition split_on (sep s : string) : list string :=
  split_on_from sep s EmptyString 0.

(** [s.replace(' ', '')]. *)
Fixpoint remove_spaces (s : string) : string :=
  match s with
  | EmptyString => EmptyString
  | String c s' =>
      if Ascii.eqb c " " then remove_spaces s' else String c (remove_spaces s')
  end.

(** Line boundaries of [str.splitlines]. *)
Definition is_linebreak (c : ascii) : bool :=
  ((10 <=? code c)%nat && (code c <=? 13)%nat)
  || ((28 <=? code c)%nat && (code c <=? 30)%nat)
  || (code c =? 133)%nat.

(** [s.splitlines()]: a carriage return followed by a line feed is one
    boundary, and a final boundary opens no empty last line. *)
Fixpoint splitlines_from (s cur : string) : list string :=
  match s with
  | EmptyString =>
      match cur with
      | EmptyString => []
      | _ => [cur]
      end
  | String c s' =>
      if is_linebreak c then
        match s' with
        | String d s'' =>
            if (code c =? 13)%nat && (code d =? 10)%nat
            then cur :: splitlines_from s'' EmptyString
            else cur :: splitlines_from s' EmptyString
        | EmptyString => [cur]
        end
      else splitlines_from s' (cur ++ String c EmptyString)
  end.

Definition splitlines (s : string) : list string :=
  splitlines_from s EmptyString.

(** [str.lower] on one character. *)
Definition lower_char (c : ascii) : ascii :=
  let n := code c in
  if ((65 <=? n)%nat && (n <=? 90)%nat)
     || ((192 <=? n)%nat && (n <=? 222)%nat && negb (n =? 215)%nat)
  then ascii_of_nat (n + 32) else c.

Fixpoint lower (s : string) : string :=
  match s with
  | EmptyString => EmptyString
  | String c s' => String (lower_char c) (lower s')
  end.

(** The decimal digits of a natural number, [str(n)] for [n >= 0]. *)
Definition str_of_N (n : N) : string :=
  NilZero.string_of_uint (N.to_uint n).

Fixpoint zeros (n : nat) : string :=
  match n with
  | O => EmptyString
  | S k => String "0" (zeros k)
  end.

Definition zfill (width : nat) (s : string) : string :=
  zeros (width - String.length s) ++ s.

(** [str(z)]. *)
Definition str_of_int (z : Z) : string :=
  if (z <? 0)%Z then String "-" (str_of_N (Z.to_N (- z)))
  else str_of_N (Z.to_N z).

(** [format(z, '0w')], as in [f"{z:02}"]: the sign counts in the width. *)
Definition format_zero (width : nat) (z : Z) : string :=
  if (z <? 0)%Z then String "-" (zfill (width - 1) (str_of_N (Z.to_N (- z))))
  else zfill width (str_of_N (Z.to_N z)).

End Py.

(** ** Regular expressions with ordered alternatives

    [datetime.strptime] compiles its format into a regular expression and
    calls [match] on it.  [run r s] lists the ways [r] matches a prefix of
    [s] in the order a backtracking matcher tries them, each with the
    captured groups and the unread rest; [match] returns the first. *)

Module Regex.

Inductive re : Type :=
| Eps
| Chr (p : ascii -> bool)
| Seq (a b : re)
| Alt (a b : re)
| Grp (a : re).

Definition consumed (s rest : string) : string :=
  String.substring 0 (String.length s - String.length rest) s.

Fixpoint run (r : re) (s : string) : list (list string * string) :=
  match r with
  | Eps => [([], s)]
  | Chr p =>
      match s with
      | String c s' => if p c then [([], s')] else []
      | EmptyString => []
      end
  | Seq a b =>
      flat_map (fun m1 =>
                  map (fun m2 => (fst m1 ++ fst m2, snd m2)) (run b (snd m1)))
               (run a s)
  | Alt a b => run a s ++ run b s
  | Grp a => map (fun m => ([consumed s (snd m)], snd m)) (run a s)
  end.

Definition lit (c : ascii) : re := Chr (Ascii.eqb c).

Definition range (lo hi : ascii) : re :=
  Chr (fun c => (Py.code lo <=? Py.code c)%nat && (Py.code c <=? Py.code hi)%nat).

(** [\d] in a [str] pattern: the decimal digits (category [Nd]), which
    below 256 are the ten ASCII digits.  Strings with a code point of 256
    or more are outside this model; on such strings the library's [\d]
    also matches the decimal digits of other scripts. *)
Definition digit : re := Chr Py.is_decimal.

(** [r{0,n}], greedy. *)
Fixpoint upto (n : nat) (r : re) : re :=
  match n with
  | O => Eps
  | S k => Alt (Seq r (upto k r)) Eps
  end.

End Regex.

(** ** [datetime.strptime(s, "%H:%M:%S,%f")] *)

Module Strptime.
Import Regex.

(** The directives' patterns, as in the library's table:
    [%H] is [2[0-3]|[0-1]\d|\d], [%M] is [[0-5]\d|\d],
    [%S] is [6[0-1]|[0-5]\d|\d] and [%f] is [[0-9]{1,6}]. *)
Definition re_H : re :=
  Grp (Alt (Seq (lit "2") (range "0" "3"))
      (Alt (Seq (range "0" "1") digit) digit)).

Definition re_M : re :=
  Grp (Alt (Seq (range "0" "5") digit) digit).

Definition re_S : re :=
  Grp (Alt (Seq (lit "6") (range "0" "1"))
      (Alt (Seq (range "0" "5") digit) digit)).

Definition re_f : re := Grp (Seq digit (upto 5 digit)).

Definition format_regex : re :=
  Seq re_H (Seq (lit ":") (Seq re_M (Seq (lit ":") (Seq re_S (Seq (lit ",") re_f))))).

Record datetime : Type := mk_datetime {
  hour : Z;
  minute : Z;
  second : Z;
  microsecond : Z
}.

(** The range checks of the [datetime] constructor on the time fields. *)
Definition check_time_fields (h m s us : Z) : bool :=
  ((0 <=? h) && (h <=? 23) && (0 <=? m) && (m <=? 59)
   && (0 <=? s) && (s <=? 59) && (0 <=? us) && (us <=? 999999))%Z.

(** The string must match the pattern from its start and be consumed whole
    by the first match; the fraction is padded with zeros on the right to
    six digits. *)
Definition strptime (data_string : string) : result datetime :=
  match run format_regex data_string with
  | [] => Raise ValueError
  | (groups, rest) :: _ =>
      match rest with
      | String _ _ => Raise ValueError
      | EmptyString =>
          match groups with
          | [gH; gM; gS; gf] =>
              let h := Py.decimal_value 0 gH in
              let m := Py.decimal_value 0 gM in
              let s := Py.decimal_value 0 gS in
              let us := Py.decimal_value 0 (gf ++ Py.zeros (6 - String.length gf)) in
              if check_time_fields h m s us
              then Ok (mk_datetime h m s us)
              else Raise ValueError
          | _ => Raise ValueError
          end
      end
  end.

End Strptime.

(** ** Time codec ([app.py]) *)

(** [time_to_ms]: any exception of the parse is re-raised as [ValueError].
    [int(dt.microsecond / 1_000)] divides in binary64 and truncates; for
    [0 <= microsecond < 10^6] that is the integer quotient. *)
Definition time_to_ms (time_str : string) : result Z :=
  match Strptime.strptime time_str with
  | Ok dt =>
      Ok (Strptime.hour dt * 3600000
          + Strptime.minute dt * 60000
          + Strptime.second dt * 1000
          + Strptime.microsecond dt / 1000)%Z
  | Raise _ => Raise ValueError
  | NoFuel => NoFuel
  end.

(** [ms_to_time]: [divmod] on integers rounds towards minus infinity and
    never raises for a non-zero divisor, so the handler is dead code. *)
Definition ms_to_time (ms : Z) : result string :=
  let hours := (ms / 3600000)%Z in
  let remaining := (ms mod 3600000)%Z in
  let minutes := (remaining / 60000)%Z in
  let remaining := (remaining mod 60000)%Z in
  let seconds := (remaining / 1000)%Z in
  let milliseconds := (remaining mod 1000)%Z in
  Ok (Py.format_zero 2 hours ++ ":" ++ Py.format_zero 2 minutes ++ ":"
      ++ Py.format_zero 2 seconds ++ "," ++ Py.format_zero 3 milliseconds)%string.

(** ** [utils/common.py] *)

Module Common.

(** The module's own [time_to_ms]: the same conversion, the whole body
    inside the handler. *)
Definition time_to_ms (time_str : string) : result Z :=
  match Strptime.strptime time_str with
  | Ok dt =>
      Ok (Strptime.hour dt * 3600000
          + Strptime.minute dt * 60000
          + Strptime.second dt * 1000
          + Strptime.microsecond dt / 1000)%Z
  | Raise _ => Raise ValueError
  | NoFuel => NoFuel
  end.

(** [is_short_subtitle]: a [ValueError] of either conversion is caught and
    answered [False]. *)
Definition is_short_subtitle (start_time_str end_time_str : string)
    (threshold_ms : Z) : result bool :=
  match time_to_ms start_time_str with
  | Ok start_ms =>
      match time_to_ms end_time_str with
      | Ok end_ms => Ok (end_ms - start_ms <=? threshold_ms)%Z
      | Raise ValueError => Ok false
      | Raise e => Raise e
      | NoFuel => NoFuel
      end
  | Raise ValueError => Ok false
  | Raise e => Raise e
  | NoFuel => NoFuel
  end.

End Common.

(** ** Data model *)

(** [SubtitleEntry], a [TypedDict] with [total=False]: a key may be absent.
    Entries are copied or rebuilt at every stage and an entry object never
    occurs twice in a list, so entries are treated as values. *)
Record SubtitleEntry : Type := mk_entry {
  index : option Z;
  start_time : option string;
  end_time : option string;
  text : option string
}.

Definition empty_entry : SubtitleEntry := mk_entry None None None None.

Definition set_index (e : SubtitleEntry) (v : Z) : SubtitleEntry :=
  mk_entry (Some v) (start_time e) (end_time e) (text e).

Definition set_times (e : SubtitleEntry) (s t : string) : SubtitleEntry :=
  mk_entry (index e) (Some s) (Some t) (text e).

Definition set_end_time (e : SubtitleEntry) (t : string) : SubtitleEntry :=
  mk_entry (index e) (start_time e) (Some t) (text e).

Definition set_text (e : SubtitleEntry) (t : string) : SubtitleEntry :=
  mk_entry (index e) (start_time e) (end_time e) (Some t).

(** [entry.get('text', '')]. *)
Definition get_text_or_empty (e : SubtitleEntry) : string :=
  match text e with
  | Some t => t
  | None => EmptyString
  end.

(** The options dictionary, each key read with its default;
    [candidateChunkSize] is the value after [int(...)] and its fallback. *)
Record options : Type := mk_options {
  enableDuplicateMerge : bool;
  maxDuplicateGap : Z;
  enableEndStartMerge : bool;
  maxEndStartGap : Z;
  enableBasicMerge : bool;
  candidateChunkSize : Z;
  maxMergeCount : Z;
  maxTextLength : Z;
  maxBasicGap : Z;
  enableSpaceMerge : bool;
  enableMinLengthMerge : bool;
  minTextLength : Z;
  enableMinDurationRemove : bool;
  minDurationMs : Z;
  enableSegmentAnalyzer : bool;
  segmentAnalyzerLanguage : string
}.

(** The values an empty options dictionary yields. *)
Definition default_options : options :=
  mk_options false 300 false 300 false 3 2 50 500 false false 1 false 300
             false "en".

Definition newline : string := String "010"%char EmptyString.

Definition len (s : string) : Z := Z.of_nat (String.length s).

(** ** Parser and serializer *)

Definition nonblank (s : string) : bool :=
  match Py.strip s with
  | EmptyString => false
  | _ => true
  end.

(** One iteration of the loop of [parse_srt] over the lines; the state is
    [(entries, entry, text_lines)]. *)
Definition parse_line (st : list SubtitleEntry * SubtitleEntry * list string)
    (raw_line : string)
  : result (list SubtitleEntry * SubtitleEntry * list string) :=
  let '(entries, entry, text_lines) := st in
  let line := Py.strip raw_line in
  match line with
  | EmptyString =>
      if nonblank (get_text_or_empty entry)
      then Ok (entries ++ [set_text entry (Py.join newline text_lines)],
               empty_entry, [])
      else Ok (entries, empty_entry, [])
  | _ =>
      match index entry, Py.isdigit line with
      | None, true =>
          v <- Py.int_of_str line ;;
          Ok (entries, set_index entry v, text_lines)
      | _, _ =>
          match start_time entry, Py.contains "-->" line with
          | None, true =>
              match Py.split_on "-->" line with
              | [s; e] =>
                  Ok (entries, set_times entry (Py.strip s) (Py.strip e),
                      text_lines)
              | _ => Raise ValueError
              end
          | _, _ =>
              let text_lines' := text_lines ++ [line] in
              Ok (entries, set_text entry (Py.join newline text_lines'),
                  text_lines')
          end
      end
  end.

Fixpoint parse_lines (st : list SubtitleEntry * SubtitleEntry * list string)
    (lines : list string)
  : result (list SubtitleEntry * SubtitleEntry * list string) :=
  match lines with
  | [] => Ok st
  | l :: ls => st' <- parse_line st l ;; parse_lines st' ls
  end.

Definition parse_srt (srt_text : string) : result (list SubtitleEntry) :=
  st <- parse_lines ([], empty_entry, []) (Py.splitlines srt_text) ;;
  let '(entries, entry, _) := st in
  if nonblank (get_text_or_empty entry)
  then Ok (entries ++ [entry])
  else Ok entries.

(** [reindex_entries]: indices from 1, in order. *)
Fixpoint reindex_from (i : Z) (entries : list SubtitleEntry)
  : list SubtitleEntry :=
  match entries with
  | [] => []
  | e :: es => set_index e i :: reindex_from (i + 1) es
  end.

Definition reindex_entries (entries : list SubtitleEntry)
  : list SubtitleEntry :=
  reindex_from 1 entries.

(** The four lines [generate_srt] appends for one entry. *)
Definition entry_lines (e : SubtitleEntry) : result (list string) :=
  i <- getitem (index e) ;;
  s <- getitem (start_time e) ;;
  t <- getitem (end_time e) ;;
  x <- getitem (text e) ;;
  Ok [Py.str_of_int i; (s ++ " --> " ++ t)%string; x; EmptyString].

Fixpoint generate_lines (entries : list SubtitleEntry)
  : result (list string) :=
  match entries with
  | [] => Ok []
  | e :: es =>
      l <- entry_lines e ;;
      ls <- generate_lines es ;;
      Ok (l ++ ls)
  end.

Definition generate_srt (entries : list SubtitleEntry) : result string :=
  lines <- generate_lines entries ;;
  Ok (Py.join newline lines).

(** ** Filters *)

(** A list comprehension [[x for x in l if keep(x)]] whose test may raise. *)
Fixpoint filter_r {A : Type} (keep : A -> result bool) (l : list A)
  : result (list A) :=
  match l with
  | [] => Ok []
  | x :: xs =>
      b <- keep x ;;
      rest <- filter_r keep xs ;;
      Ok (if b then x :: rest else rest)
  end.

Definition is_bracketed (e : SubtitleEntry) : result bool :=
  t <- getitem (text e) ;;
  let t := Py.strip t in
  Ok (Py.startswith "[" t && Py.endswith_char "]" t).

Definition filter_bracket_entries (entries : list SubtitleEntry)
  : result (list SubtitleEntry) :=
  filter_r (fun e => b <- is_bracketed e ;; Ok (negb b)) entries.

(** Truth value of an [Optional[str]]. *)
Definition truthy (o : option string) : bool :=
  match o with
  | Some (String _ _) => true
  | _ => false
  end.

Definition filter_by_time_range (entries : list SubtitleEntry)
    (start_t end_t : option string) : result (list SubtitleEntry) :=
  match start_t, end_t with
  | Some (String a s), Some (String b e) =>
      start_ms <- time_to_ms (String a s) ;;
      end_ms <- time_to_ms (String b e) ;;
      filter_r (fun entry =>
                  t <- getitem (start_time entry) ;;
                  ms <- time_to_ms t ;;
                  Ok ((start_ms <=? ms) && (ms <=? end_ms))%Z)
               entries
  | _, _ => Ok entries
  end.

Definition remove_short_entries (entries : list SubtitleEntry)
    (opts : options) : result (list SubtitleEntry) :=
  if negb (enableMinDurationRemove opts) then Ok entries
  else
    filter_r (fun entry =>
                s <- getitem (start_time entry) ;;
                e <- getitem (end_time entry) ;;
                b <- Common.is_short_subtitle s e (minDurationMs opts) ;;
                Ok (negb b))
             entries.

(** ** Duplicate merger *)

(** The inner [while] of [merge_duplicate_entries]: returns the final
    [(duplicate_count, current_end_ms)]. *)
Fixpoint duplicate_scan (fuel : nat) (entries : list SubtitleEntry)
    (max_duplicate_gap : Z) (idx : nat) (current : SubtitleEntry)
    (duplicate_count : nat) (current_end_ms : Z) : result (nat * Z) :=
  match fuel with
  | O => NoFuel
  | S fuel' =>
      if (idx + duplicate_count <? List.length entries)%nat then
        next_entry <- list_index entries (idx + duplicate_count) ;;
        next_start <- getitem (start_time next_entry) ;;
        next_start_ms <- time_to_ms next_start ;;
        let time_gap := (next_start_ms - current_end_ms)%Z in
        cur_text <- getitem (text current) ;;
        next_text <- getitem (text next_entry) ;;
        if String.eqb cur_text next_text
           && ((0 <=? time_gap) && (time_gap <=? max_duplicate_gap))%Z
        then
          next_end <- getitem (end_time next_entry) ;;
          end_ms <- time_to_ms next_end ;;
          duplicate_scan fuel' entries max_duplicate_gap idx current
                         (S duplicate_count) end_ms
        else Ok (duplicate_count, current_end_ms)
      else Ok (duplicate_count, current_end_ms)
  end.

Fixpoint duplicate_loop (fuel : nat) (entries : list SubtitleEntry)
    (max_duplicate_gap : Z) (idx : nat) : result (list SubtitleEntry) :=
  match fuel with
  | O => NoFuel
  | S fuel' =>
      if (idx <? List.length entries)%nat then
        current <- list_index entries idx ;;
        cur_end <- getitem (end_time current) ;;
        cur_end_ms <- time_to_ms cur_end ;;
        '(duplicate_count, current_end_ms) <-
          duplicate_scan (S (List.length entries)) entries max_duplicate_gap
                         idx current 1 cur_end_ms ;;
        if (1 <? duplicate_count)%nat then
          s <- getitem (start_time current) ;;
          e <- ms_to_time current_end_ms ;;
          t <- getitem (text current) ;;
          rest <- duplicate_loop fuel' entries max_duplicate_gap
                                 (idx + duplicate_count) ;;
          Ok (mk_entry None (Some s) (Some e) (Some t) :: rest)
        else
          rest <- duplicate_loop fuel' entries max_duplicate_gap (idx + 1) ;;
          Ok (current :: rest)
      else Ok []
  end.

Definition merge_duplicate_entries (entries : list SubtitleEntry)
    (max_duplicate_gap : Z) : result (list SubtitleEntry) :=
  duplicate_loop (S (List.length entries)) entries max_duplicate_gap 0.

(** ** Boundary merger *)

(** [l[-1]] on a non-empty list. *)
Definition last_word (ws : list string) : option string :=
  match ws with
  | [] => None
  | w :: ws' => Some (List.last ws' w)
  end.

(** The inner [while] of [merge_end_start_entries]: returns the final
    [(merged_entry, idx)]. *)
Fixpoint end_start_scan (fuel : nat) (entries : list SubtitleEntry)
    (max_end_start_gap : Z) (enable_space_merge : bool)
    (merged_entry : SubtitleEntry) (idx : nat)
  : result (SubtitleEntry * nat) :=
  match fuel with
  | O => NoFuel
  | S fuel' =>
      if (idx + 1 <? List.length entries)%nat then
        next_entry <- list_index entries (idx + 1) ;;
        cur_end <- getitem (end_time merged_entry) ;;
        current_end_ms <- time_to_ms cur_end ;;
        next_start <- getitem (start_time next_entry) ;;
        next_start_ms <- time_to_ms next_start ;;
        if (max_end_start_gap <? next_start_ms - current_end_ms)%Z
        then Ok (merged_entry, idx)
        else
          cur_text <- getitem (text merged_entry) ;;
          let current_words := Py.split_ws (Py.strip cur_text) in
          next_text <- getitem (text next_entry) ;;
          let next_words := Py.split_ws (Py.strip next_text) in
          match last_word current_words, next_words with
          | Some w, first :: others =>
              if String.eqb w first then
                next_end <- getitem (end_time next_entry) ;;
                let merged_entry := set_end_time merged_entry next_end in
                let remaining_text :=
                  if (1 <? List.length next_words)%nat
                  then Py.join " " others else EmptyString in
                let joiner :=
                  match enable_space_merge, remaining_text with
                  | true, String _ _ => " "%string
                  | _, _ => EmptyString
                  end in
                let merged_entry :=
                  set_text merged_entry
                           (Py.strip cur_text ++ joiner ++ remaining_text) in
                end_start_scan fuel' entries max_end_start_gap
                               enable_space_merge merged_entry (idx + 1)
              else Ok (merged_entry, idx)
          | _, _ => Ok (merged_entry, idx)
          end
      else Ok (merged_entry, idx)
  end.

Fixpoint end_start_loop (fuel : nat) (entries : list SubtitleEntry)
    (max_end_start_gap : Z) (enable_space_merge : bool) (idx : nat)
  : result (list SubtitleEntry) :=
  match fuel with
  | O => NoFuel
  | S fuel' =>
      if (idx <? List.length entries)%nat then
        first <- list_index entries idx ;;
        '(merged_entry, idx') <-
          end_start_scan (S (List.length entries)) entries max_end_start_gap
                         enable_space_merge first idx ;;
        rest <- end_start_loop fuel' entries max_end_start_gap
                               enable_space_merge (idx' + 1) ;;
        Ok (merged_entry :: rest)
      else Ok []
  end.

(** [max_text_length] and the trailing flags are accepted and unused. *)
Definition merge_end_start_entries (entries : list SubtitleEntry)
    (max_end_start_gap : Z) (enable_space_merge : bool)
    (max_text_length : Z) : result (list SubtitleEntry) :=
  end_start_loop (S (List.length entries)) entries max_end_start_gap
                 enable_space_merge 0.

(** ** Candidate pipeline *)

(** [_join_segment_text]. *)
Definition _join_segment_text (current_text next_text : string)
    (enable_space_merge : bool) : string :=
  let left := Py.strip current_text in
  let right := Py.strip next_text in
  match left, right with
  | EmptyString, _ => right
  | _, EmptyString => left
  | _, _ =>
      let separator := if enable_space_merge then " "%string else EmptyString in
      (left ++ separator ++ right)%string
  end.

(** [_can_extend_merge]. *)
Definition _can_extend_merge (current_text : string)
    (next_entry : SubtitleEntry) (current_end_time : string) (opts : options)
  : result bool :=
  let max_basic_gap := maxBasicGap opts in
  let enable_min_length_merge := enableMinLengthMerge opts in
  let min_text_length := minTextLength opts in
  current_end_ms <- time_to_ms current_end_time ;;
  next_start <- getitem (start_time next_entry) ;;
  next_start_ms <- time_to_ms next_start ;;
  if (max_basic_gap <? next_start_ms - current_end_ms)%Z then Ok false
  else if enable_min_length_merge then
    let current_len := len (Py.remove_spaces current_text) in
    next_text <- getitem (text next_entry) ;;
    let next_len := len (Py.remove_spaces (Py.strip next_text)) in
    if (min_text_length <=? current_len)%Z || (min_text_length <=? next_len)%Z
    then Ok false
    else Ok true
  else Ok true.

(** The fields of the analyzer's verdict that the pipeline reads. *)
Record SegmentAnalysis : Type := mk_analysis {
  is_complete_sentence : bool;
  completeness_score : float;
  break_naturalness : float
}.

(** A merge candidate of one window. *)
Record candidate : Type := mk_candidate {
  cand_entry : SubtitleEntry;
  merge_count : nat;
  analysis : option SegmentAnalysis;
  score : float;
  is_complete : bool;
  start_idx : nat
}.

(** The sort key of the selection: a tuple of two floats and an integer. *)
Definition cand_key (c : candidate) : float * float * Z :=
  (score c,
   match analysis c with
   | Some a => break_naturalness a
   | None => 0%float
   end,
   Z.of_nat (merge_count c)).

(** [k1 > k2] on such tuples: the first position where the items differ
    decides. *)
Definition key_gt (k1 k2 : float * float * Z) : bool :=
  let '(s1, b1, m1) := k1 in
  let '(s2, b2, m2) := k2 in
  if negb (PrimFloat.eqb s1 s2) then PrimFloat.ltb s2 s1
  else if negb (PrimFloat.eqb b1 b2) then PrimFloat.ltb b2 b1
  else (m2 <? m1)%Z.

(** [max(items, key=...)] on a non-empty list: the first item whose key no
    later item exceeds. *)
Definition py_max {A K : Type} (key : A -> K) (gt : K -> K -> bool)
    (first : A) (others : list A) : A :=
  fold_left (fun best x => if gt (key x) (key best) then x else best)
            others first.

(** An entry appended to the output of the candidate pipeline, with the
    number of input entries it stands for: 1 for an entry copied as it is,
    the merge count for a selected candidate. *)
Record produced : Type := mk_produced {
  out_entry : SubtitleEntry;
  absorbed : nat
}.

Record process_result : Type := mk_process_result {
  output : string;
  beforeCount : nat;
  afterCount : nat
}.

Section Pipeline.

(** The external analyzer, [analyze_segment(text, language=...)]: [None]
    when the call raises. *)
Variable analyze_segment : string -> string -> option SegmentAnalysis.

(** [round(x, 4)] on floats. *)
Variable round4 : float -> float.

(** [_safe_analyze_segment]: a failure of the analyzer is no verdict. *)
Definition _safe_analyze_segment (txt language : string)
    (enable_analyzer : bool) : option SegmentAnalysis :=
  if negb enable_analyzer then None else analyze_segment txt language.

(** [_compute_candidate_score]; the weights are the binary64 values of the
    literals [0.7] and [0.3]. *)
Definition _compute_candidate_score (a : option SegmentAnalysis) : float :=
  match a with
  | None => 0%float
  | Some a =>
      round4 (0x1.6666666666666p-1 * completeness_score a
              + 0x1.3333333333333p-2 * break_naturalness a)%float
  end.

(** [max(1, candidate_chunk_size)]. *)
Definition chunk_size (opts : options) : Z := Z.max 1 (candidateChunkSize opts).

(** [str(options.get('segmentAnalyzerLanguage', 'en') or 'en').lower()]. *)
Definition analyzer_language (opts : options) : string :=
  Py.lower match segmentAnalyzerLanguage opts with
           | EmptyString => "en"%string
           | l => l
           end.

(** The [while True] loop that grows the candidates of one start index;
    returns the candidates it appends, in order. *)
Fixpoint grow (fuel : nat) (entries : list SubtitleEntry) (opts : options)
    (window_end : nat) (start : nat) (start_entry : SubtitleEntry)
    (current_text current_end_time : string) (count : nat)
    (current_analysis : option SegmentAnalysis) : result (list candidate) :=
  match fuel with
  | O => NoFuel
  | S fuel' =>
      let sc := _compute_candidate_score current_analysis in
      let complete :=
        match current_analysis with
        | Some a => is_complete_sentence a
        | None => false
        end in
      s <- getitem (start_time start_entry) ;;
      let cand :=
        mk_candidate
          (mk_entry None (Some s) (Some current_end_time) (Some current_text))
          count current_analysis sc complete start in
      if (maxMergeCount opts <=? Z.of_nat count)%Z
         || (chunk_size opts <=? Z.of_nat count)%Z
         || (window_end <=? start + count)%nat
      then Ok [cand]
      else
        next_entry <- list_index entries (start + count) ;;
        can <- _can_extend_merge current_text next_entry current_end_time opts ;;
        if negb can then Ok [cand]
        else
          next_text <- getitem (text next_entry) ;;
          let combined_text :=
            _join_segment_text current_text next_text (enableSpaceMerge opts) in
          if (maxTextLength opts <? len combined_text)%Z then Ok [cand]
          else
            next_end <- getitem (end_time next_entry) ;;
            rest <- grow fuel' entries opts window_end start start_entry
                         combined_text next_end (S count)
                         (_safe_analyze_segment combined_text
                            (analyzer_language opts)
                            (enableSegmentAnalyzer opts)) ;;
            Ok (cand :: rest)
  end.

(** The [for start_idx in range(idx, window_end)] loop. *)
Fixpoint candidates_from (entries : list SubtitleEntry) (opts : options)
    (window_end : nat) (starts : list nat) : result (list candidate) :=
  match starts with
  | [] => Ok []
  | start :: starts' =>
      start_entry <- list_index entries start ;;
      t <- getitem (text start_entry) ;;
      let current_text := Py.strip t in
      current_end_time <- getitem (end_time start_entry) ;;
      cs <- grow (S (List.length entries)) entries opts window_end start
                 start_entry current_text current_end_time 1
                 (_safe_analyze_segment current_text (analyzer_language opts)
                    (enableSegmentAnalyzer opts)) ;;
      more <- candidates_from entries opts window_end starts' ;;
      Ok (cs ++ more)
  end.

Definition window_end_of (entries : list SubtitleEntry) (opts : options)
    (idx : nat) : nat :=
  Nat.min (List.length entries) (idx + Z.to_nat (chunk_size opts)).

(** The candidates of the window that opens at [idx]. *)
Definition window_candidates (entries : list SubtitleEntry) (opts : options)
    (idx : nat) : result (list candidate) :=
  let window_end := window_end_of entries opts idx in
  candidates_from entries opts window_end (seq idx (window_end - idx)).

(** [[entries[i].copy() for i in range(from, to)]]. *)
Fixpoint copies (entries : list SubtitleEntry) (positions : list nat)
  : result (list produced) :=
  match positions with
  | [] => Ok []
  | i :: rest =>
      e <- list_index entries i ;;
      more <- copies entries rest ;;
      Ok (mk_produced e 1 :: more)
  end.

(** [max(window_candidates, key=...)]. *)
Definition best_of (first : candidate) (others : list candidate) : candidate :=
  py_max cand_key key_gt first others.

(** One iteration of the outer [while]: the entries it appends and the new
    value of the cursor [idx]. *)
Definition basic_iteration (entries : list SubtitleEntry) (opts : options)
    (idx : nat) : result (list produced * nat) :=
  cands <- window_candidates entries opts idx ;;
  match cands with
  | [] =>
      e <- list_index entries idx ;;
      Ok ([mk_produced e 1], idx + 1)%nat
  | first :: others =>
      let best_candidate := best_of first others in
      fills <- copies entries
                 (seq idx (start_idx best_candidate - idx)) ;;
      Ok ((fills ++ [mk_produced (cand_entry best_candidate)
                                 (merge_count best_candidate)])%list,
          start_idx best_candidate + merge_count best_candidate)%nat
  end.

Fixpoint basic_loop (fuel : nat) (entries : list SubtitleEntry)
    (opts : options) (idx : nat) : result (list produced) :=
  match fuel with
  | O => NoFuel
  | S fuel' =>
      if (idx <? List.length entries)%nat then
        '(out, idx') <- basic_iteration entries opts idx ;;
        rest <- basic_loop fuel' entries opts idx' ;;
        Ok (out ++ rest)
      else Ok []
  end.

(** The output of [merge_basic_entries] with, for each entry, the number of
    input entries it stands for. *)
Definition merge_basic_trace (entries : list SubtitleEntry) (opts : options)
  : result (list produced) :=
  basic_loop (S (List.length entries)) entries opts 0.

Definition merge_basic_entries (entries : list SubtitleEntry) (opts : options)
  : result (list SubtitleEntry) :=
  out <- merge_basic_trace entries opts ;;
  Ok (map out_entry out).

(** ** Orchestration *)

Definition apply_merge_pipeline (entries : list SubtitleEntry)
    (opts : options) : result (list SubtitleEntry) :=
  entries <- (if enableDuplicateMerge opts
              then merge_duplicate_entries entries (maxDuplicateGap opts)
              else Ok entries) ;;
  entries <- (if enableEndStartMerge opts
              then merge_end_start_entries entries (maxEndStartGap opts)
                     (enableSpaceMerge opts) (maxTextLength opts)
              else Ok entries) ;;
  if enableBasicMerge opts then merge_basic_entries entries opts
  else Ok entries.

(** The body of the [try] of [process_srt]. *)
Definition process_srt_body (srt_text : string) (opts : options)
    (start_t end_t : option string) : result process_result :=
  entries <- parse_srt srt_text ;;
  entries <- filter_by_time_range entries start_t end_t ;;
  let before_count := List.length entries in
  entries <- filter_bracket_entries entries ;;
  entries <- remove_short_entries entries opts ;;
  entries <- apply_merge_pipeline entries opts ;;
  let after_count := List.length entries in
  let entries := reindex_entries entries in
  out <- generate_srt entries ;;
  Ok (mk_process_result out before_count after_count).

(** [process_srt]: every exception is re-raised as [ValueError]. *)
Definition process_srt (srt_text : string) (opts : options)
    (start_t end_t : option string) : result process_result :=
  match process_srt_body srt_text opts start_t end_t with
  | Raise _ => Raise ValueError
  | r => r
  end.

End Pipeline.

(** * Vocabulary of the properties *)

Import Regex Strptime.

Arguments consumed : simpl never.

(** ** Time stamps *)

(** A pattern all of whose character classes are classes of decimal
    digits. *)
Fixpoint digit_only (r : re) : Prop :=
  match r with
  | Eps => True
  | Chr p => forall c, p c = true -> Py.is_decimal c = true
  | Seq a b | Alt a b => digit_only a /\ digit_only b
  | Grp a => digit_only a
  end.

(** Least number of characters a pattern reads. *)
Fixpoint min_len (r : re) : nat :=
  match r with
  | Eps => 0
  | Chr _ => 1
  | Seq a b => min_len a + min_len b
  | Alt a b => Nat.min (min_len a) (min_len b)
  | Grp a => min_len a
  end.

(** Greatest number of characters a pattern reads. *)
Fixpoint max_len (r : re) : nat :=
  match r with
  | Eps => 0
  | Chr _ => 1
  | Seq a b => max_len a + max_len b
  | Alt a b => Nat.max (max_len a) (max_len b)
  | Grp a => max_len a
  end.

(** [g] is a run of decimal digits of a length between [lo] and [hi]. *)
Definition field (lo hi : nat) (g : string) : Prop :=
  Py.all_chars Py.is_decimal g = true
  /\ (lo <= String.length g <= hi)%nat.

(** The microseconds of a fraction: its digits padded on the right with
    zeros to six. *)
Definition usec (gf : string) : Z :=
  Py.decimal_value 0 (gf ++ Py.zeros (6 - String.length gf)).

(** The stamp made of four fields. *)
Definition stamp (gh gm gs gf : string) : string :=
  (gh ++ ":" ++ gm ++ ":" ++ gs ++ "," ++ gf)%string.

(** The character of a decimal digit. *)
Definition dchar (n : nat) : ascii := ascii_of_nat (48 + n).

(** The strings [time_to_ms] converts, with the value it returns. *)
Definition accepted (t : string) (v : Z) : Prop :=
  exists gh gm gs gf : string,
    t = stamp gh gm gs gf
    /\ field 1 2 gh /\ field 1 2 gm /\ field 1 2 gs /\ field 1 6 gf
    /\ (Py.decimal_value 0 gh <= 23)%Z
    /\ (Py.decimal_value 0 gm <= 59)%Z
    /\ (Py.decimal_value 0 gs <= 59)%Z
    /\ v = (Py.decimal_value 0 gh * 3600000 + Py.decimal_value 0 gm * 60000
            + Py.decimal_value 0 gs * 1000 + usec gf / 1000)%Z
    /\ (String.length gf = 3%nat -> (usec gf / 1000)%Z = Py.decimal_value 0 gf).

(** The exact pattern [HH:MM:SS,mmm]: two digits, colon, two digits, colon,
    two digits, comma, three digits. *)
Definition strict_shape (t : string) : bool :=
  match t with
  | String h1 (String h2 (String c1 (String m1 (String m2 (String c2
      (String s1 (String s2 (String c3 (String f1 (String f2 (String f3
        EmptyString))))))))))) =>
      Py.is_decimal h1 && Py.is_decimal h2 && Ascii.eqb c1 ":"
      && Py.is_decimal m1 && Py.is_decimal m2 && Ascii.eqb c2 ":"
      && Py.is_decimal s1 && Py.is_decimal s2 && Ascii.eqb c3 ","
      && Py.is_decimal f1 && Py.is_decimal f2 && Py.is_decimal f3
  | _ => false
  end.

(** ** Candidate pipeline *)

(** Number of characters other than the space, [len(s.replace(' ', ''))]. *)
Definition non_space_length (s : string) : Z := len (Py.remove_spaces s).

(** Options that enable the basic merge and the minimum-length rule. *)
Definition min_length_options (min_text_length : Z) : options :=
  mk_options false 300 false 300 true 3 2 50 500 false true min_text_length
             false 300 false "en".

(** What holds of a candidate grown from position [start] up to the bound
    [window_end]. *)
Record grown (opts : options) (window_end start : nat) (c : candidate)
  : Prop := mk_grown {
  grown_start : start_idx c = start;
  grown_pos : (1 <= merge_count c)%nat;
  grown_end : (start + merge_count c <= Nat.max (start + 1) window_end)%nat;
  grown_count : (Z.of_nat (merge_count c) <= Z.max 1 (maxMergeCount opts))%Z;
  grown_text :
    (2 <= merge_count c)%nat ->
    exists t, text (cand_entry c) = Some t /\ (len t <= maxTextLength opts)%Z
}.

(** What holds of every entry the pipeline appends to its output. *)
Definition within_limits (opts : options) (p : produced) : Prop :=
  (1 <= absorbed p)%nat
  /\ (Z.of_nat (absorbed p) <= Z.max 1 (maxMergeCount opts))%Z
  /\ ((2 <= absorbed p)%nat ->
      exists t, text (out_entry p) = Some t
                /\ (len t <= maxTextLength opts)%Z).

(** An analyzer that fails on every call, and a rounding that does
    nothing: the analyzer is disabled in the sample runs. *)
Definition no_analyzer : string -> string -> option SegmentAnalysis :=
  fun _ _ => None.

(** A [round] that leaves its argument as it is. *)
Definition no_rounding : float -> float := fun x => x.

(** Options that enable the basic merge alone. *)
Definition basic_options (max_merge_count max_text_length : Z) : options :=
  mk_options false 300 false 300 true 3 max_merge_count max_text_length 500
             false false 1 false 300 false "en".

(** An entry with its two timestamps and its text, and no index. *)
Definition timed (s e t : string) : SubtitleEntry :=
  mk_entry None (Some s) (Some e) (Some t).

(** Two short entries 100 ms apart. *)
Definition two_short_entries : list SubtitleEntry :=
  [timed "00:00:01,000" "00:00:02,000" "ab";
   timed "00:00:02,100" "00:00:03,000" "cd"].

(** ** Entries and timestamps *)

(** The entry [parse_srt] builds from the one-line input ["hello"]: a text
    and no other key. *)
Definition text_only : SubtitleEntry :=
  mk_entry None None None (Some "hello").

(** A timestamp [time_to_ms] rejects. *)
Definition malformed (t : string) : Prop := time_to_ms t = Raise ValueError.

(** A timestamp that is present and that [time_to_ms] converts. *)
Definition well_formed_time (o : option string) : Prop :=
  exists t v, o = Some t /\ time_to_ms t = Ok v.

(** The test of the minimum-duration filter as a total function: an entry
    whose start or end does not convert is not short. *)
Definition is_short (opts : options) (e : SubtitleEntry) : bool :=
  match start_time e, end_time e with
  | Some s, Some t =>
      match time_to_ms s, time_to_ms t with
      | Ok a, Ok b => (b - a <=? minDurationMs opts)%Z
      | _, _ => false
      end
  | _, _ => false
  end.

(** An entry with both timestamps. *)
Definition has_times (e : SubtitleEntry) : Prop :=
  start_time e <> None /\ end_time e <> None.

(** Options that enable the minimum-duration filter alone. *)
Definition duration_filter_options : options :=
  mk_options false 300 false 300 false 3 2 50 500 false false 1 true 300
             false "en".

(** A one-block input whose start timestamp is not a timestamp. *)
Definition srt_with_bad_start : string :=
  ("1" ++ newline ++ "bad --> 00:00:02,000" ++ newline ++ "x")%string.

(** ** Words and occurrences *)

(** A character that is not a blank. *)
Definition nonspace (c : ascii) : bool := negb (Py.is_space c).

(** A word: not empty and without blanks. *)
Definition word (w : string) : Prop :=
  w <> EmptyString /\ Py.all_chars nonspace w = true.

(** Sum of the occurrences of [w] in the strings of a list. *)
Definition occurrences (w : string) (l : list string) : nat :=
  list_sum (map (Py.count w) l).

(** [p] is empty or ends with a blank: a word can start right after it. *)
Definition word_boundary (p : string) : Prop :=
  p = EmptyString
  \/ exists p' c, p = (p' ++ String c "")%string /\ Py.is_space c = true.

(** The text the boundary merger builds from the trimmed first text and
    the words of the second after the shared one. *)
Definition boundary_text (current_text : string) (others : list string)
    (enable_space_merge : bool) : string :=
  let remaining_text := Py.join " " others in
  let joiner :=
    match enable_space_merge, remaining_text with
    | true, String _ _ => " "%string
    | _, _ => EmptyString
    end in
  (Py.strip current_text ++ joiner ++ remaining_text)%string.

(** Two entries that share the word [end] at their boundary. *)
Definition first_half : SubtitleEntry :=
  timed "00:00:01,000" "00:00:02,000" "this is the end".

Definition second_half : SubtitleEntry :=
  timed "00:00:02,100" "00:00:03,000" "end of it".

(** Three entries that chain: the first two share the word [end], the
    merged text then ends with [y], the first word of the third. *)
Definition chain_first : SubtitleEntry :=
  timed "00:00:01,000" "00:00:02,000" "x end".

Definition chain_second : SubtitleEntry :=
  timed "00:00:02,100" "00:00:03,000" "end y".

Definition chain_third : SubtitleEntry :=
  timed "00:00:03,100" "00:00:04,000" "y end".

(** ** Serializer and parser *)

(** An entry with its four keys. *)
Definition complete (e : SubtitleEntry) : Prop :=
  index e <> None /\ start_time e <> None /\ end_time e <> None
  /\ text e <> None.








(** A line without a line boundary. *)
Definition unbroken (l : string) : Prop :=
  Py.all_chars (fun c => negb (Py.is_linebreak c)) l = true.








(** * Properties *)

(** ** Strings *)

Lemma append_nil_r (s : string) : (s ++ "")%string = s.
Proof. induction s as [|c s IH]; simpl; [reflexivity | now rewrite IH]. Qed.

Lemma append_assoc (a b c : string) :
  ((a ++ b) ++ c)%string = (a ++ (b ++ c))%string.
Proof. induction a as [|x a IH]; simpl; [reflexivity | now rewrite IH]. Qed.

Lemma length_append (a b : string) :
  String.length (a ++ b) = (String.length a + String.length b)%nat.
Proof. induction a as [|x a IH]; simpl; [reflexivity | now rewrite IH]. Qed.

(** ** Time codec: negative milliseconds *)

Lemma no_match_minus (rest : string) :
  Regex.run Strptime.format_regex (String "-" rest) = [].
Proof. reflexivity. Qed.

(** C5, the claim as stated fails: [ms_to_time (-1)] returns the string
    ["-1:59:59,999"] and raises nothing. *)
Lemma ms_to_time_minus_one_returns :
  ms_to_time (-1) = Ok "-1:59:59,999"%string
  /\ forall e, ms_to_time (-1) <> Raise e.
Proof. split; [reflexivity | intros e H; discriminate H]. Qed.

(** C5, amended: for every negative input [ms_to_time] raises nothing; it
    returns a string that begins with a minus sign (the hour field is the
    negative floor quotient), which [time_to_ms] in turn rejects. *)
Theorem ms_to_time_negative (ms : Z) :
  (ms < 0)%Z ->
  exists rest : string,
    ms_to_time ms = Ok (String "-" rest)
    /\ time_to_ms (String "-" rest) = Raise ValueError.
Proof.
  intros Hneg.
  assert (Hq : (ms / 3600000 < 0)%Z)
    by (apply Z.div_lt_upper_bound; lia).
  unfold ms_to_time, Py.format_zero.
  apply Z.ltb_lt in Hq. rewrite Hq. simpl String.append.
  eexists. split; [reflexivity |].
  unfold time_to_ms, Strptime.strptime. now rewrite no_match_minus.
Qed.

Lemma ms_to_time_negative_witness :
  exists rest : string,
    ms_to_time (-1) = Ok (String "-" rest)
    /\ time_to_ms (String "-" rest) = Raise ValueError.
Proof. apply (ms_to_time_negative (-1)). lia. Defined.

(** ** The matcher: what a match consumes *)

Lemma consumed_app (pre rest : string) : consumed (pre ++ rest) rest = pre.
Proof.
  unfold consumed. rewrite length_append.
  replace (String.length pre + String.length rest - String.length rest)%nat
    with (String.length pre) by lia.
  induction pre as [|c pre IH]; simpl.
  - destruct rest; reflexivity.
  - now rewrite IH.
Qed.

Lemma consumed_1 (a : ascii) (r : string) :
  consumed (String a r) r = String a "".
Proof. apply (consumed_app (String a "") r). Qed.

Lemma consumed_2 (a b : ascii) (r : string) :
  consumed (String a (String b r)) r = String a (String b "").
Proof. apply (consumed_app (String a (String b "")) r). Qed.

Lemma in_run_seq (a b : re) (s : string) (g : list string) (rest : string) :
  In (g, rest) (run (Seq a b) s) ->
  exists g1 mid g2,
    In (g1, mid) (run a s) /\ In (g2, rest) (run b mid) /\ g = (g1 ++ g2)%list.
Proof.
  simpl. intros H. apply in_flat_map in H as [[g1 mid] [H1 H2]].
  apply in_map_iff in H2 as [[g2 r] [E H2]]. simpl in E.
  injection E as <- <-. now exists g1, mid, g2.
Qed.

Lemma in_run_lit (c : ascii) (s : string) (g : list string) (rest : string) :
  In (g, rest) (run (lit c) s) -> s = String c rest /\ g = [].
Proof.
  destruct s as [|d s]; simpl; [tauto |].
  destruct (Ascii.eqb c d) eqn:E; simpl; [| tauto].
  apply Ascii.eqb_eq in E. subst d.
  intros [H | []]. injection H as <- <-. now split.
Qed.

Lemma all_chars_app (p : ascii -> bool) (a b : string) :
  Py.all_chars p (a ++ b) = Py.all_chars p a && Py.all_chars p b.
Proof.
  induction a as [|c a IH]; simpl; [reflexivity |].
  now rewrite IH, andb_assoc.
Qed.

Lemma run_digit_only (r : re) :
  digit_only r ->
  forall s g rest,
    In (g, rest) (run r s) ->
    exists pre, s = (pre ++ rest)%string /\ field (min_len r) (max_len r) pre.
Proof.
  unfold field.
  induction r as [|p|a IHa b IHb|a IHa b IHb|a IHa]; intros D s g rest H.
  - simpl in H. destruct H as [H | []]. injection H as <- <-.
    exists ""%string. simpl. repeat split; lia.
  - destruct s as [|c s]; simpl in H; [tauto |].
    destruct (p c) eqn:E; simpl in H; [| tauto].
    destruct H as [H | []]. injection H as <- <-.
    exists (String c ""). simpl. rewrite (D c E). repeat split; lia.
  - destruct D as [Da Db].
    apply in_run_seq in H as (g1 & mid & g2 & H1 & H2 & _).
    destruct (IHa Da _ _ _ H1) as (p1 & -> & F1 & L1).
    destruct (IHb Db _ _ _ H2) as (p2 & -> & F2 & L2).
    exists (p1 ++ p2)%string. rewrite append_assoc, all_chars_app, F1, F2.
    rewrite length_append. simpl. repeat split; lia.
  - destruct D as [Da Db]. simpl in H. apply in_app_iff in H as [H | H].
    + destruct (IHa Da _ _ _ H) as (p1 & -> & F1 & L1).
      exists p1. simpl. repeat split; auto; lia.
    + destruct (IHb Db _ _ _ H) as (p1 & -> & F1 & L1).
      exists p1. simpl. repeat split; auto; lia.
  - simpl in H. apply in_map_iff in H as [[g' r'] [E H]]. simpl in E.
    injection E as _ <-. exact (IHa D _ _ _ H).
Qed.

(** A group around such a pattern captures the digits it read. *)
Lemma in_run_group (a : re) (s : string) (g : list string) (rest : string) :
  digit_only a ->
  In (g, rest) (run (Grp a) s) ->
  exists pre,
    s = (pre ++ rest)%string /\ g = [pre]
    /\ field (min_len a) (max_len a) pre.
Proof.
  intros D H. simpl in H. apply in_map_iff in H as [[g' r'] [E H]].
  simpl in E. injection E as <- <-.
  destruct (run_digit_only a D _ _ _ H) as (pre & -> & F).
  exists pre. now rewrite consumed_app.
Qed.

Lemma lit_digit (d : ascii) :
  Py.is_decimal d = true -> forall c, Ascii.eqb d c = true -> Py.is_decimal c = true.
Proof. intros H c E. apply Ascii.eqb_eq in E. now subst. Qed.

Lemma range_digit (lo hi : ascii) :
  Py.is_decimal lo = true -> Py.is_decimal hi = true ->
  forall c,
    ((Py.code lo <=? Py.code c)%nat && (Py.code c <=? Py.code hi)%nat) = true ->
    Py.is_decimal c = true.
Proof.
  unfold Py.is_decimal. intros Hlo Hhi c H.
  apply andb_true_iff in Hlo as [L1 _]. apply andb_true_iff in Hhi as [_ H2].
  apply andb_true_iff in H as [A B].
  apply Nat.leb_le in L1, H2, A, B.
  apply andb_true_iff. split; apply Nat.leb_le; lia.
Qed.

Lemma digit_only_inner_H :
  digit_only (Alt (Seq (lit "2") (range "0" "3"))
             (Alt (Seq (range "0" "1") digit) digit)).
Proof.
  unfold lit, range, digit; cbn [digit_only upto]. repeat split;
    first [ apply lit_digit; reflexivity
          | apply range_digit; reflexivity
          | intros c H; exact H ].
Qed.

Lemma digit_only_inner_M : digit_only (Alt (Seq (range "0" "5") digit) digit).
Proof.
  unfold lit, range, digit; cbn [digit_only upto]. repeat split;
    first [ apply range_digit; reflexivity | intros c H; exact H ].
Qed.

Lemma digit_only_inner_S :
  digit_only (Alt (Seq (lit "6") (range "0" "1"))
             (Alt (Seq (range "0" "5") digit) digit)).
Proof.
  unfold lit, range, digit; cbn [digit_only upto]. repeat split;
    first [ apply lit_digit; reflexivity
          | apply range_digit; reflexivity
          | intros c H; exact H ].
Qed.

Lemma digit_only_inner_f : digit_only (Seq digit (upto 5 digit)).
Proof.
  unfold digit; cbn [digit_only upto]. repeat split; intros c H; exact H.
Qed.

(** ** Time codec: what [strptime] accepts *)

Lemma strptime_sound (t : string) (dt : datetime) :
  strptime t = Ok dt ->
  exists gh gm gs gf,
    t = stamp gh gm gs gf
    /\ field 1 2 gh /\ field 1 2 gm /\ field 1 2 gs /\ field 1 6 gf
    /\ dt = mk_datetime (Py.decimal_value 0 gh) (Py.decimal_value 0 gm)
                        (Py.decimal_value 0 gs) (usec gf)
    /\ check_time_fields (Py.decimal_value 0 gh) (Py.decimal_value 0 gm)
                         (Py.decimal_value 0 gs) (usec gf) = true.
Proof.
  unfold strptime. intros H.
  destruct (run format_regex t) as [|[groups rest] l] eqn:E; [discriminate |].
  destruct rest as [|x rest]; [| discriminate].
  assert (M : In (groups, ""%string) (run format_regex t))
    by (rewrite E; now left).
  clear E. unfold format_regex in M.
  apply in_run_seq in M as (g1 & r1 & k1 & M1 & M & ->).
  apply in_run_seq in M as (g2 & r2 & k2 & C1 & M & ->).
  apply in_run_seq in M as (g3 & r3 & k3 & M2 & M & ->).
  apply in_run_seq in M as (g4 & r4 & k4 & C2 & M & ->).
  apply in_run_seq in M as (g5 & r5 & k5 & M3 & M & ->).
  apply in_run_seq in M as (g6 & r6 & k6 & C3 & M4 & ->).
  apply in_run_lit in C1 as [-> ->], C2 as [-> ->], C3 as [-> ->].
  apply (in_run_group _ _ _ _ digit_only_inner_H) in M1 as (gh & -> & -> & Fh).
  apply (in_run_group _ _ _ _ digit_only_inner_M) in M2 as (gm & -> & -> & Fm).
  apply (in_run_group _ _ _ _ digit_only_inner_S) in M3 as (gs & -> & -> & Fs).
  apply (in_run_group _ _ _ _ digit_only_inner_f) in M4 as (gf & -> & -> & Ff).
  rewrite append_nil_r in *.
  cbn [app] in H.
  exists gh, gm, gs, gf.
  fold (usec gf) in H.
  destruct (check_time_fields _ _ _ _) eqn:K; [| discriminate].
  injection H as <-.
  repeat split; try assumption; try apply Fh; try apply Fm; try apply Fs; try apply Ff.
Qed.

(** Conversely, a stamp with fields in range is matched field by field. *)

Lemma is_decimal_dchar (c : ascii) :
  Py.is_decimal c = true -> exists n, (n < 10)%nat /\ c = dchar n.
Proof.
  unfold Py.is_decimal, Py.code, dchar. intros H.
  apply andb_true_iff in H as [A B]. apply Nat.leb_le in A, B.
  exists (nat_of_ascii c - 48)%nat. split; [lia |].
  replace (48 + (nat_of_ascii c - 48))%nat with (nat_of_ascii c) by lia.
  now rewrite ascii_nat_embedding.
Qed.

Lemma field_1_2_cases (g : string) :
  field 1 2 g ->
  (exists a, (a < 10)%nat /\ g = String (dchar a) "")
  \/ (exists a b, (a < 10)%nat /\ (b < 10)%nat
                  /\ g = String (dchar a) (String (dchar b) "")).
Proof.
  intros [D L]. destruct g as [|x [|y [|z g]]]; simpl in L; try lia.
  - left. simpl in D. apply andb_true_iff in D as [Dx _].
    destruct (is_decimal_dchar x Dx) as (a & Ha & ->). now exists a.
  - right. simpl in D. apply andb_true_iff in D as [Dx D].
    apply andb_true_iff in D as [Dy _].
    destruct (is_decimal_dchar x Dx) as (a & Ha & ->).
    destruct (is_decimal_dchar y Dy) as (b & Hb & ->). now exists a, b.
Qed.

Ltac field_case Hv :=
  first [ exfalso; vm_compute in Hv; discriminate Hv
        | simpl;
          rewrite ?consumed_1, ?consumed_2, ?app_nil_r, ?map_map; simpl;
          reflexivity ].

Ltac digit_cases n tac :=
  do 10 (destruct n as [|n]; [tac |]); exfalso; lia.

Ltac field_cases F Hv :=
  let a := fresh "a" in
  let b := fresh "b" in
  let Ha := fresh "Ha" in
  let Hb := fresh "Hb" in
  destruct (field_1_2_cases _ F) as [(a & Ha & ->) | (a & b & Ha & Hb & ->)];
  [ digit_cases a ltac:(field_case Hv)
  | digit_cases a ltac:(digit_cases b ltac:(field_case Hv)) ].

Lemma run_hour (g rest : string) (R : re) :
  field 1 2 g -> (Py.decimal_value 0 g <=? 23)%Z = true ->
  run (Seq re_H (Seq (lit ":") R)) (g ++ String ":" rest)
  = map (fun m => (g :: fst m, snd m)) (run R rest).
Proof. intros F Hv. field_cases F Hv. Qed.

Lemma run_minute (g rest : string) (R : re) :
  field 1 2 g -> (Py.decimal_value 0 g <=? 59)%Z = true ->
  run (Seq re_M (Seq (lit ":") R)) (g ++ String ":" rest)
  = map (fun m => (g :: fst m, snd m)) (run R rest).
Proof. intros F Hv. field_cases F Hv. Qed.

Lemma run_second (g rest : string) (R : re) :
  field 1 2 g -> (Py.decimal_value 0 g <=? 59)%Z = true ->
  run (Seq re_S (Seq (lit ",") R)) (g ++ String "," rest)
  = map (fun m => (g :: fst m, snd m)) (run R rest).
Proof. intros F Hv. field_cases F Hv. Qed.

Lemma run_upto_digits (n : nat) (s : string) :
  Py.all_chars Py.is_decimal s = true -> (String.length s <= n)%nat ->
  exists l, run (upto n digit) s = ([], ""%string) :: l.
Proof.
  revert s. induction n as [|n IH]; intros s D L.
  - destruct s; simpl in L; [| lia]. now exists [].
  - destruct s as [|c s].
    + now exists [].
    + simpl in D, L. apply andb_true_iff in D as [Dc D].
      destruct (IH s D ltac:(lia)) as [l E].
      cbn [upto run digit flat_map]. rewrite Dc. cbn [flat_map map app fst snd].
      rewrite E. cbn. eexists. reflexivity.
Qed.

Lemma consumed_all (s : string) : consumed s "" = s.
Proof.
  pose proof (consumed_app s "") as H. now rewrite append_nil_r in H.
Qed.

Lemma run_fraction (g : string) :
  field 1 6 g -> exists l, run re_f g = ([g], ""%string) :: l.
Proof.
  intros [D L]. destruct g as [|c g]; simpl in L; [lia |].
  simpl in D. apply andb_true_iff in D as [Dc D].
  destruct (run_upto_digits 5 g D ltac:(lia)) as [l E].
  unfold re_f. cbn [run digit flat_map]. rewrite Dc.
  cbn [flat_map map app fst snd]. rewrite E. cbn [map app fst snd].
  rewrite consumed_all.
  eexists. reflexivity.
Qed.

Lemma decimal_value_bounds (s : string) :
  Py.all_chars Py.is_decimal s = true ->
  forall acc, (0 <= acc)%Z ->
    (0 <= Py.decimal_value acc s
     < (acc + 1) * 10 ^ Z.of_nat (String.length s))%Z.
Proof.
  induction s as [|c s IH]; intros D acc Hacc.
  - simpl. lia.
  - simpl in D. apply andb_true_iff in D as [Dc D].
    assert (Hc : (0 <= Py.digit_val c <= 9)%Z).
    { unfold Py.is_decimal in Dc. apply andb_true_iff in Dc as [A B].
      apply Nat.leb_le in A, B. unfold Py.digit_val. lia. }
    cbn [Py.decimal_value String.length].
    specialize (IH D (10 * acc + Py.digit_val c)%Z ltac:(lia)).
    rewrite Nat2Z.inj_succ, Z.pow_succ_r by lia.
    assert (P : (0 < 10 ^ Z.of_nat (String.length s))%Z)
      by (apply Z.pow_pos_nonneg; lia).
    nia.
Qed.

Lemma all_chars_zeros (n : nat) : Py.all_chars Py.is_decimal (Py.zeros n) = true.
Proof. induction n; simpl; auto. Qed.

Lemma length_zeros (n : nat) : String.length (Py.zeros n) = n.
Proof. induction n; simpl; auto. Qed.

Lemma usec_bounds (g : string) :
  field 1 6 g -> (0 <= usec g <= 999999)%Z.
Proof.
  intros [D L]. unfold usec.
  pose proof (decimal_value_bounds (g ++ Py.zeros (6 - String.length g))) as B.
  rewrite all_chars_app, D, all_chars_zeros in B.
  specialize (B eq_refl 0%Z ltac:(lia)).
  rewrite length_append, length_zeros in B.
  replace (String.length g + (6 - String.length g))%nat with 6%nat in B by lia.
  change (10 ^ Z.of_nat 6)%Z with 1000000%Z in B. lia.
Qed.

Lemma field_value_nonneg (lo hi : nat) (g : string) :
  field lo hi g -> (0 <= Py.decimal_value 0 g)%Z.
Proof.
  intros [D _]. apply (decimal_value_bounds g D 0%Z). lia.
Qed.

Lemma strptime_complete (gh gm gs gf : string) :
  field 1 2 gh -> field 1 2 gm -> field 1 2 gs -> field 1 6 gf ->
  (Py.decimal_value 0 gh <= 23)%Z ->
  (Py.decimal_value 0 gm <= 59)%Z ->
  (Py.decimal_value 0 gs <= 59)%Z ->
  strptime (stamp gh gm gs gf)
  = Ok (mk_datetime (Py.decimal_value 0 gh) (Py.decimal_value 0 gm)
                    (Py.decimal_value 0 gs) (usec gf)).
Proof.
  intros Fh Fm Fs Ff Bh Bm Bs.
  unfold strptime, stamp, format_regex. cbn [String.append].
  rewrite (run_hour gh _ _ Fh) by now apply Z.leb_le.
  rewrite (run_minute gm _ _ Fm) by now apply Z.leb_le.
  rewrite (run_second gs _ _ Fs) by now apply Z.leb_le.
  destruct (run_fraction gf Ff) as [l ->].
  cbn [map fst snd]. fold (usec gf).
  pose proof (usec_bounds gf Ff) as Bu.
  pose proof (field_value_nonneg _ _ _ Fh).
  pose proof (field_value_nonneg _ _ _ Fm).
  pose proof (field_value_nonneg _ _ _ Fs).
  replace (check_time_fields _ _ _ _) with true; [reflexivity |].
  symmetry. unfold check_time_fields.
  repeat (apply andb_true_iff; split); apply Z.leb_le; lia.
Qed.

Lemma decimal_value_app (a b : string) (acc : Z) :
  Py.decimal_value acc (a ++ b) = Py.decimal_value (Py.decimal_value acc a) b.
Proof. revert acc. induction a as [|c a IH]; intros acc; simpl; auto. Qed.

Lemma usec_three_digits (g : string) :
  String.length g = 3%nat -> (usec g / 1000 = Py.decimal_value 0 g)%Z.
Proof.
  intros L. unfold usec. rewrite L, decimal_value_app.
  cbn [Nat.sub Py.zeros Py.decimal_value].
  change (Py.digit_val "0") with 0%Z.
  set (x := Py.decimal_value 0 g).
  replace (10 * (10 * (10 * x + 0) + 0) + 0)%Z with (x * 1000)%Z by lia.
  apply Z.div_mul. lia.
Qed.

Lemma time_to_ms_never_out_of_fuel (t : string) : time_to_ms t <> NoFuel.
Proof.
  unfold time_to_ms. destruct (strptime t) eqn:E; try discriminate.
  unfold strptime in E.
  destruct (run format_regex t) as [|[g r] l]; [discriminate |].
  destruct r; [| discriminate].
  destruct g as [|? [|? [|? [|? [|]]]]]; try discriminate.
  destruct (check_time_fields _ _ _ _); discriminate.
Qed.

Lemma time_to_ms_accepted (t : string) (v : Z) :
  time_to_ms t = Ok v <-> accepted t v.
Proof.
  unfold time_to_ms. split.
  - destruct (strptime t) as [dt| |] eqn:E; try discriminate.
    intros H. injection H as <-.
    apply strptime_sound in E
      as (gh & gm & gs & gf & -> & Fh & Fm & Fs & Ff & -> & K).
    unfold check_time_fields in K.
    repeat (apply andb_true_iff in K as [K ?]).
    exists gh, gm, gs, gf. cbn [hour minute second microsecond].
    repeat split; try assumption; try (apply Z.leb_le; assumption);
      try apply Fh; try apply Fm; try apply Fs; try apply Ff.
    apply usec_three_digits.
  - intros (gh & gm & gs & gf & -> & Fh & Fm & Fs & Ff & Bh & Bm & Bs & -> & _).
    now rewrite (strptime_complete gh gm gs gf).
Qed.

(** C3, the claim as stated fails: ["1:2:3,5"] has one-digit fields and a
    one-digit fraction, and [time_to_ms] converts it (to 1 h 2 min 3.5 s). *)
Lemma time_to_ms_accepts_short_fields :
  strict_shape "1:2:3,5" = false
  /\ time_to_ms "1:2:3,5" = Ok 3723500%Z.
Proof. split; reflexivity. Qed.

(** C3, amended: among the strings whose characters all have a code point
    below 256 (every [string] here, see the conventions), [time_to_ms]
    returns an integer exactly for the strings [h:m:s,f] whose hour, minute
    and second are one or two ASCII digits with [h <= 23], [m <= 59],
    [s <= 59] and whose fraction is one to six ASCII digits, and raises
    [ValueError] for every other such string.  The result is
    [h*3_600_000 + m*60_000 + s*1_000 + F/1000], [F] being the fraction
    padded on the right with zeros to six digits; for a fraction of three
    digits that last term is the fraction itself.  Nothing is stated of a
    string that holds a code point of 256 or more. *)
Theorem time_to_ms_lenient (t : string) :
  (forall v, time_to_ms t = Ok v <-> accepted t v)
  /\ (time_to_ms t = Raise ValueError <-> forall v, ~ accepted t v).
Proof.
  split; [apply time_to_ms_accepted |].
  split.
  - intros H v A. apply time_to_ms_accepted in A. congruence.
  - intros H. destruct (time_to_ms t) as [v|e|] eqn:E.
    + exfalso. apply (H v). now apply time_to_ms_accepted.
    + unfold time_to_ms in E. destruct (strptime t); congruence.
    + exfalso. now apply (time_to_ms_never_out_of_fuel t).
Qed.

Lemma time_to_ms_lenient_witness :
  accepted "01:02:03,456" 3723456%Z
  /\ ~ (forall v, ~ accepted "1:2:3,5" v).
Proof.
  split.
  - apply (proj1 (time_to_ms_lenient "01:02:03,456")). reflexivity.
  - intros H.
    apply (proj2 (time_to_ms_lenient "1:2:3,5")) in H. discriminate H.
Defined.

(** ** Time codec: round trip *)

Lemma split_at_separator (c : ascii) (a a' r r' : string) :
  Py.is_decimal c = false ->
  Py.all_chars Py.is_decimal a = true ->
  Py.all_chars Py.is_decimal a' = true ->
  (a ++ String c r)%string = (a' ++ String c r')%string ->
  a = a' /\ r = r'.
Proof.
  intros Hc. revert a'.
  induction a as [|x a IH]; intros [|y a'] Da Da' E; simpl in *.
  - injection E as ->. now split.
  - injection E as <- _. apply andb_true_iff in Da' as [Dy _]. congruence.
  - injection E as -> _. apply andb_true_iff in Da as [Dx _]. congruence.
  - injection E as -> E.
    apply andb_true_iff in Da as [_ Da]. apply andb_true_iff in Da' as [_ Da'].
    destruct (IH a' Da Da' E) as [-> ->]. now split.
Qed.

Lemma stamp_inj (gh gm gs gf gh' gm' gs' gf' : string) :
  field 1 2 gh -> field 1 2 gm -> field 1 2 gs ->
  field 1 2 gh' -> field 1 2 gm' -> field 1 2 gs' ->
  stamp gh gm gs gf = stamp gh' gm' gs' gf' ->
  gh = gh' /\ gm = gm' /\ gs = gs' /\ gf = gf'.
Proof.
  intros [Dh _] [Dm _] [Ds _] [Dh' _] [Dm' _] [Ds' _] E.
  unfold stamp in E. cbn [String.append] in E.
  apply split_at_separator in E as [-> E]; [| reflexivity | assumption..].
  apply split_at_separator in E as [-> E]; [| reflexivity | assumption..].
  apply split_at_separator in E as [-> E]; [| reflexivity | assumption..].
  now repeat split.
Qed.

Lemma strict_shape_stamp (t : string) :
  strict_shape t = true ->
  exists gh gm gs gf,
    t = stamp gh gm gs gf
    /\ field 2 2 gh /\ field 2 2 gm /\ field 2 2 gs /\ field 3 3 gf.
Proof.
  unfold strict_shape.
  destruct t as [|h1 [|h2 [|c1 [|m1 [|m2 [|c2 [|s1 [|s2 [|c3 [|f1 [|f2 [|f3
    [|? ?]]]]]]]]]]]]]; try discriminate.
  intros H. repeat (apply andb_true_iff in H as [H ?]).
  repeat match goal with
         | K : Ascii.eqb _ _ = true |- _ => apply Ascii.eqb_eq in K; subst
         end.
  exists (String h1 (String h2 "")), (String m1 (String m2 "")),
         (String s1 (String s2 "")), (String f1 (String f2 (String f3 ""))).
  unfold field. cbn [Py.all_chars String.length].
  repeat match goal with K : Py.is_decimal _ = true |- _ => rewrite K; clear K end.
  repeat split; try first [reflexivity | lia].
  unfold Py.is_decimal.
  repeat match goal with K : _ = true |- _ => rewrite K; clear K end.
  reflexivity.
Qed.

Lemma field_2_2_digits (g : string) :
  field 2 2 g ->
  exists a b, (a < 10)%nat /\ (b < 10)%nat
              /\ g = String (dchar a) (String (dchar b) "").
Proof.
  intros [D L].
  assert (F : field 1 2 g) by (split; [assumption | lia]).
  destruct (field_1_2_cases g F) as [(a & _ & ->) | H];
    [simpl in L; lia | exact H].
Qed.

Lemma field_3_3_digits (g : string) :
  field 3 3 g ->
  exists a b c, (a < 10)%nat /\ (b < 10)%nat /\ (c < 10)%nat
                /\ g = String (dchar a) (String (dchar b) (String (dchar c) "")).
Proof.
  intros [D L]. destruct g as [|x [|y [|z [|? ?]]]]; simpl in L; try lia.
  simpl in D. repeat (apply andb_true_iff in D as [? D]).
  destruct (is_decimal_dchar x) as (a & Ha & ->); [assumption |].
  destruct (is_decimal_dchar y) as (b & Hb & ->); [assumption |].
  destruct (is_decimal_dchar z) as (c & Hc & ->); [assumption |].
  now exists a, b, c.
Qed.

Lemma format_two_digits (g : string) :
  field 2 2 g -> Py.format_zero 2 (Py.decimal_value 0 g) = g.
Proof.
  intros F. destruct (field_2_2_digits g F) as (a & b & Ha & Hb & ->).
  digit_cases a ltac:(digit_cases b ltac:(vm_compute; reflexivity)).
Qed.

Lemma format_three_digits (g : string) :
  field 3 3 g -> Py.format_zero 3 (Py.decimal_value 0 g) = g.
Proof.
  intros F. destruct (field_3_3_digits g F) as (a & b & c & Ha & Hb & Hc & ->).
  digit_cases a ltac:(digit_cases b ltac:(digit_cases c ltac:(vm_compute; reflexivity))).
Qed.

Lemma ms_to_time_fields (h m s ms : Z) :
  (0 <= m < 60)%Z -> (0 <= s < 60)%Z -> (0 <= ms < 1000)%Z ->
  ms_to_time (h * 3600000 + m * 60000 + s * 1000 + ms)
  = Ok (Py.format_zero 2 h ++ ":" ++ Py.format_zero 2 m ++ ":"
        ++ Py.format_zero 2 s ++ "," ++ Py.format_zero 3 ms)%string.
Proof.
  intros Hm Hs Hms. unfold ms_to_time.
  set (v := (h * 3600000 + m * 60000 + s * 1000 + ms)%Z).
  assert (E1 : (v / 3600000 = h)%Z).
  { symmetry. apply (Z.div_unique v 3600000 h (m * 60000 + s * 1000 + ms)); lia. }
  assert (E2 : (v mod 3600000 = m * 60000 + s * 1000 + ms)%Z).
  { symmetry. apply (Z.mod_unique v 3600000 h); lia. }
  rewrite E1, E2.
  assert (E3 : ((m * 60000 + s * 1000 + ms) / 60000 = m)%Z).
  { symmetry. apply (Z.div_unique _ 60000 m (s * 1000 + ms)); lia. }
  assert (E4 : ((m * 60000 + s * 1000 + ms) mod 60000 = s * 1000 + ms)%Z).
  { symmetry. apply (Z.mod_unique _ 60000 m); lia. }
  rewrite E3, E4.
  assert (E5 : ((s * 1000 + ms) / 1000 = s)%Z).
  { symmetry. apply (Z.div_unique _ 1000 s ms); lia. }
  assert (E6 : ((s * 1000 + ms) mod 1000 = ms)%Z).
  { symmetry. apply (Z.mod_unique _ 1000 s); lia. }
  now rewrite E5, E6.
Qed.

Lemma field_weaken (lo hi lo' hi' : nat) (g : string) :
  (lo' <= lo)%nat -> (hi <= hi')%nat -> field lo hi g -> field lo' hi' g.
Proof. intros ? ? [D L]. split; [assumption | lia]. Qed.

(** C4: for every timestamp of the exact shape [HH:MM:SS,mmm] that
    [time_to_ms] accepts, [ms_to_time (time_to_ms t)] is [t] again. *)
Theorem round_trip_strict (t : string) (v : Z) :
  strict_shape t = true ->
  time_to_ms t = Ok v ->
  ms_to_time v = Ok t.
Proof.
  intros S H.
  destruct (strict_shape_stamp t S) as (gh & gm & gs & gf & -> & Fh & Fm & Fs & Ff).
  apply time_to_ms_accepted in H
    as (gh' & gm' & gs' & gf' & E & Fh' & Fm' & Fs' & Ff' & Bh & Bm & Bs & -> & U).
  apply stamp_inj in E as (<- & <- & <- & <-);
    try (eapply field_weaken; [| | eassumption]; lia); try assumption.
  rewrite (usec_three_digits gf) by (destruct Ff; lia).
  pose proof (field_value_nonneg _ _ _ Fm).
  pose proof (field_value_nonneg _ _ _ Fs).
  pose proof (decimal_value_bounds gf (proj1 Ff) 0%Z ltac:(lia)) as Bf.
  replace (String.length gf) with 3%nat in Bf by (destruct Ff; lia).
  change (10 ^ Z.of_nat 3)%Z with 1000%Z in Bf.
  rewrite ms_to_time_fields by lia.
  rewrite !format_two_digits, format_three_digits by assumption.
  reflexivity.
Qed.

Lemma round_trip_strict_witness : ms_to_time 3723456 = Ok "01:02:03,456"%string.
Proof. apply (round_trip_strict "01:02:03,456" 3723456); reflexivity. Defined.

(** ** Candidate pipeline: the minimum-length rule *)

(** C1, the claim as stated fails: with [minTextLength = 5] the current
    text ["ab"] is short (2 characters) and the gap is 100 ms, yet the
    extension by an entry of 8 characters is refused. *)
Lemma one_short_text_is_refused :
  (non_space_length "ab" < 5)%Z
  /\ time_to_ms "00:00:01,000" = Ok 1000%Z
  /\ time_to_ms "00:00:01,100" = Ok 1100%Z
  /\ (1100 - 1000 <= maxBasicGap (min_length_options 5))%Z
  /\ _can_extend_merge "ab"
       (mk_entry None (Some "00:00:01,100") (Some "00:00:02,000")
                 (Some "abcdefgh"))
       "00:00:01,000" (min_length_options 5)
     = Ok false.
Proof. repeat split; first [reflexivity | simpl; lia]. Qed.

(** C1, amended: when the minimum-length-merge rule is enabled and the gap
    is within [maxBasicGap], the extension is permitted exactly when both
    texts -- the current merged text and the next entry's trimmed text --
    have fewer than [minTextLength] non-space characters; it is refused as
    soon as one of them has [minTextLength] or more. *)
Theorem min_length_rule_needs_both_short
    (current_text current_end_time next_start next_text : string)
    (next_entry : SubtitleEntry) (opts : options) (end_ms start_ms : Z) :
  enableMinLengthMerge opts = true ->
  time_to_ms current_end_time = Ok end_ms ->
  start_time next_entry = Some next_start ->
  time_to_ms next_start = Ok start_ms ->
  (start_ms - end_ms <= maxBasicGap opts)%Z ->
  text next_entry = Some next_text ->
  _can_extend_merge current_text next_entry current_end_time opts
  = Ok ((non_space_length current_text <? minTextLength opts)%Z
        && (non_space_length (Py.strip next_text) <? minTextLength opts)%Z).
Proof.
  intros En He Hs Hm Hgap Ht. unfold _can_extend_merge, non_space_length.
  rewrite He, Hs. cbn [bind getitem]. rewrite Hm. cbn [bind].
  replace (maxBasicGap opts <? start_ms - end_ms)%Z with false
    by (symmetry; apply Z.ltb_ge; lia).
  rewrite En, Ht. cbn [bind getitem].
  rewrite !(Z.ltb_antisym (minTextLength opts)).
  destruct (minTextLength opts <=? len (Py.remove_spaces current_text))%Z;
    destruct (minTextLength opts
              <=? len (Py.remove_spaces (Py.strip next_text)))%Z;
    reflexivity.
Qed.

Lemma min_length_rule_needs_both_short_witness :
  _can_extend_merge "ab"
    (mk_entry None (Some "00:00:01,100") (Some "00:00:02,000") (Some "cd"))
    "00:00:01,000" (min_length_options 5)
  = Ok ((non_space_length "ab" <? 5)%Z
        && (non_space_length (Py.strip "cd") <? 5)%Z).
Proof.
  apply (min_length_rule_needs_both_short "ab" "00:00:01,000" "00:00:01,100"
           "cd" _ (min_length_options 5) 1000 1100);
    first [reflexivity | simpl; lia].
Defined.

(** ** Candidate pipeline: candidates of a window *)

Ltac inv_bind H :=
  repeat match type of H with
         | bind ?c _ = Ok _ =>
             let E := fresh "E" in
             destruct c eqn:E; cbn [bind] in H; [| discriminate H..]
         end.

(** Steps through a sequence of calls none of which can exhaust fuel. *)
Ltac fuel_step :=
  match goal with
  | |- Ok _ <> NoFuel => discriminate
  | |- Raise _ <> NoFuel => discriminate
  | |- bind (getitem ?o) _ <> NoFuel =>
      destruct o; cbn [getitem bind]
  | |- bind (list_index ?l ?i) _ <> NoFuel =>
      unfold list_index; destruct (nth_error l i); cbn [bind]
  | |- bind (time_to_ms ?t) _ <> NoFuel =>
      let E := fresh "E" in
      destruct (time_to_ms t) eqn:E; cbn [bind];
      [ | | exfalso; exact (time_to_ms_never_out_of_fuel t E)]
  | |- (if ?b then _ else _) <> NoFuel => destruct b
  end.

Section PipelineFacts.

Variable an : string -> string -> option SegmentAnalysis.
Variable rd : float -> float.

Lemma grow_grown (opts : options) (entries : list SubtitleEntry)
    (window_end start : nat) (start_entry : SubtitleEntry) (fuel : nat) :
  forall (current_text current_end_time : string) (count : nat)
         (a : option SegmentAnalysis) (cs : list candidate),
    (1 <= count)%nat ->
    (start + count <= Nat.max (start + 1) window_end)%nat ->
    (Z.of_nat count <= Z.max 1 (maxMergeCount opts))%Z ->
    ((2 <= count)%nat -> (len current_text <= maxTextLength opts)%Z) ->
    grow an rd fuel entries opts window_end start start_entry current_text
         current_end_time count a = Ok cs ->
    cs <> [] /\ Forall (grown opts window_end start) cs.
Proof.
  induction fuel as [|fuel IH]; intros txt et count a cs H1 H2 H3 H4 H;
    [discriminate H |].
  simpl in H. inv_bind H.
  set (cand := mk_candidate _ _ _ _ _ _) in H.
  assert (G : grown opts window_end start cand).
  { constructor; cbn; auto. intros K. exists txt. auto. }
  destruct (_ || _ || _) eqn:Stop.
  { injection H as <-. split; [discriminate | now constructor]. }
  apply orb_false_iff in Stop as [Stop S3].
  apply orb_false_iff in Stop as [S1 S2].
  apply Z.leb_gt in S1, S2. apply Nat.leb_gt in S3.
  inv_bind H.
  destruct (negb _).
  { injection H as <-. split; [discriminate | now constructor]. }
  inv_bind H.
  destruct (_ <? _)%Z eqn:Long.
  { injection H as <-. split; [discriminate | now constructor]. }
  apply Z.ltb_ge in Long.
  inv_bind H. injection H as <-.
  split; [discriminate |]. constructor; [exact G |].
  match goal with
  | K : grow _ _ _ _ _ _ _ _ _ _ _ _ = Ok _ |- _ =>
      apply IH in K; [apply K | lia | lia | lia | intros _; exact Long]
  end.
Qed.

Lemma _can_extend_merge_fuel (current_text : string)
    (next_entry : SubtitleEntry) (current_end_time : string) (opts : options) :
  _can_extend_merge current_text next_entry current_end_time opts <> NoFuel.
Proof. unfold _can_extend_merge. repeat fuel_step. Qed.

(** The loop of [grow] runs at most once per position left in the window. *)
Lemma grow_fuel (opts : options) (entries : list SubtitleEntry)
    (window_end start : nat) (start_entry : SubtitleEntry) (fuel : nat) :
  forall (current_text current_end_time : string) (count : nat)
         (a : option SegmentAnalysis),
    (window_end - (start + count) < fuel)%nat ->
    grow an rd fuel entries opts window_end start start_entry current_text
         current_end_time count a <> NoFuel.
Proof.
  induction fuel as [|fuel IH]; intros txt et count a Hf; [lia |].
  simpl. fuel_step; [| discriminate].
  destruct (_ || _ || _) eqn:Stop; [discriminate |].
  apply orb_false_iff in Stop as [_ S3]. apply Nat.leb_gt in S3.
  fuel_step; [| discriminate].
  match goal with
  | |- bind (_can_extend_merge ?t ?n ?e ?o) _ <> NoFuel =>
      pose proof (_can_extend_merge_fuel t n e o) as C;
      destruct (_can_extend_merge t n e o) as [b| |]; cbn [bind];
      [| discriminate | congruence]
  end.
  destruct (negb b); [discriminate |].
  fuel_step; [| discriminate].
  destruct (_ <? _)%Z; [discriminate |].
  fuel_step; [| discriminate].
  match goal with
  | |- context [grow an rd fuel ?e ?o ?w ?s ?se ?t ?x ?c ?y] =>
      pose proof (IH t x c y ltac:(lia)) as N;
      destruct (grow an rd fuel e o w s se t x c y); cbn [bind];
      congruence
  end.
Qed.

(** With the analyzer disabled no candidate carries a verdict, and every
    score is the constant [0.0]. *)
Lemma grow_without_analyzer (opts : options) (entries : list SubtitleEntry)
    (window_end start : nat) (start_entry : SubtitleEntry) (fuel : nat) :
  enableSegmentAnalyzer opts = false ->
  forall (current_text current_end_time : string) (count : nat)
         (cs : list candidate),
    grow an rd fuel entries opts window_end start start_entry current_text
         current_end_time count None = Ok cs ->
    Forall (fun c => analysis c = None /\ score c = 0%float) cs.
Proof.
  intros Off.
  induction fuel as [|fuel IH]; intros txt et count cs H; [discriminate H |].
  simpl in H. inv_bind H.
  set (cand := mk_candidate _ _ _ _ _ _) in H.
  assert (G : analysis cand = None /\ score cand = 0%float) by now split.
  destruct (_ || _ || _).
  { injection H as <-. now constructor. }
  inv_bind H.
  destruct (negb _).
  { injection H as <-. now constructor. }
  inv_bind H.
  destruct (_ <? _)%Z.
  { injection H as <-. now constructor. }
  inv_bind H. injection H as <-.
  constructor; [exact G |].
  match goal with
  | K : grow _ _ _ _ _ _ _ _ _ _ _ _ = Ok _ |- _ =>
      unfold _safe_analyze_segment in K; rewrite Off in K; cbn [negb] in K;
      now apply IH in K
  end.
Qed.

Lemma candidates_from_grown (opts : options) (entries : list SubtitleEntry)
    (window_end : nat) (starts : list nat) :
  forall cs,
    candidates_from an rd entries opts window_end starts = Ok cs ->
    (starts <> [] -> cs <> [])
    /\ Forall (fun c => In (start_idx c) starts
                        /\ grown opts window_end (start_idx c) c) cs.
Proof.
  induction starts as [|start starts IH]; intros cs H.
  - injection H as <-. split; [congruence | constructor].
  - cbn [candidates_from] in H. inv_bind H. injection H as <-.
    match goal with
    | K : grow _ _ _ _ _ _ _ _ _ _ _ _ = Ok _ |- _ =>
        apply grow_grown in K as [NE G];
        [| lia | lia | lia | intros; lia]
    end.
    destruct (IH _ eq_refl) as [_ F].
    split.
    + intros _ Nil. apply app_eq_nil in Nil as [Nil _]. contradiction.
    + apply Forall_app. split.
      * eapply Forall_impl; [| exact G]. intros c Gc.
        rewrite (grown_start _ _ _ _ Gc). split; [now left | exact Gc].
      * eapply Forall_impl; [| exact F]. intros c [I Gc].
        split; [now right | exact Gc].
Qed.

Lemma candidates_from_fuel (opts : options) (entries : list SubtitleEntry)
    (window_end : nat) (starts : list nat) :
  (window_end <= List.length entries)%nat ->
  candidates_from an rd entries opts window_end starts <> NoFuel.
Proof.
  intros W. induction starts as [|start starts IH]; [discriminate |].
  cbn [candidates_from]. repeat (fuel_step; [| discriminate]).
  match goal with
  | |- bind (grow an rd ?f ?e ?o ?w ?s ?se ?t ?x ?c ?y) _ <> NoFuel =>
      pose proof (grow_fuel o e w s se f t x c y ltac:(lia)) as N;
      destruct (grow an rd f e o w s se t x c y); cbn [bind];
      [| discriminate | congruence]
  end.
  destruct (candidates_from an rd entries opts window_end starts);
    cbn [bind]; congruence.
Qed.

Lemma candidates_from_without_analyzer (opts : options)
    (entries : list SubtitleEntry) (window_end : nat) (starts : list nat) :
  enableSegmentAnalyzer opts = false ->
  forall cs,
    candidates_from an rd entries opts window_end starts = Ok cs ->
    Forall (fun c => analysis c = None /\ score c = 0%float) cs.
Proof.
  intros Off. induction starts as [|start starts IH]; intros cs H.
  - injection H as <-. constructor.
  - cbn [candidates_from] in H. inv_bind H. injection H as <-.
    apply Forall_app. split.
    + match goal with
      | K : grow _ _ _ _ _ _ _ _ _ _ _ _ = Ok _ |- _ =>
          unfold _safe_analyze_segment in K; rewrite Off in K;
          cbn [negb] in K; now apply grow_without_analyzer in K
      end.
    + now apply IH.
Qed.

(** [max] returns one of the items. *)
Lemma py_max_in {A K : Type} (key : A -> K) (gt : K -> K -> bool)
    (others : list A) :
  forall first, In (py_max key gt first others) (first :: others).
Proof.
  unfold py_max. induction others as [|x others IH]; intros first.
  - now left.
  - cbn [fold_left].
    destruct (IH (if gt (key x) (key first) then x else first)) as [E | I].
    + rewrite <- E. destruct (gt (key x) (key first)); [right | ]; now left.
    + right. now right.
Qed.

(** When [gt] compares a measure [m] of the keys, no item has a greater
    measure than the one [max] returns. *)
Lemma py_max_greatest {A K : Type} (key : A -> K) (gt : K -> K -> bool)
    (m : A -> Z) (others : list A) :
  forall first,
    (forall x y, In x (first :: others) -> In y (first :: others) ->
                 gt (key x) (key y) = (m y <? m x)%Z) ->
    forall x, In x (first :: others) ->
              (m x <= m (py_max key gt first others))%Z.
Proof.
  unfold py_max. induction others as [|y others IH]; intros first G x I.
  - destruct I as [<- | []]. cbn. lia.
  - cbn [fold_left].
    assert (Gy : gt (key y) (key first) = (m first <? m y)%Z)
      by (apply G; [right | ]; now left).
    rewrite Gy.
    set (b := if (m first <? m y)%Z then y else first).
    assert (Hb : (m first <= m b)%Z /\ (m y <= m b)%Z /\ In b (first :: y :: others)).
    { unfold b. destruct (m first <? m y)%Z eqn:C.
      - apply Z.ltb_lt in C. repeat split; try lia. right. now left.
      - apply Z.ltb_ge in C. repeat split; try lia. now left. }
    destruct Hb as (B1 & B2 & B3).
    assert (G' : forall u v, In u (b :: others) -> In v (b :: others) ->
                             gt (key u) (key v) = (m v <? m u)%Z).
    { intros u v Iu Iv. apply G.
      - destruct Iu as [<- | Iu]; [exact B3 | right; now right].
      - destruct Iv as [<- | Iv]; [exact B3 | right; now right]. }
    assert (Mb : (m b <= m (fold_left
                     (fun best z => if gt (key z) (key best) then z else best)
                     others b))%Z)
      by (apply (IH b G' b); now left).
    destruct I as [<- | [<- | I]].
    + lia.
    + lia.
    + apply (IH b G'). now right.
Qed.

Lemma key_gt_zero_scores (a b : Z) :
  key_gt (0%float, 0%float, a) (0%float, 0%float, b) = (b <? a)%Z.
Proof. reflexivity. Qed.

Lemma copies_spec (entries : list SubtitleEntry) (positions : list nat) :
  copies entries positions <> NoFuel
  /\ ((forall i, In i positions -> (i < List.length entries)%nat) ->
      exists out, copies entries positions = Ok out
                  /\ Forall (fun p => absorbed p = 1%nat) out).
Proof.
  induction positions as [|i ps [IH1 IH2]].
  - split; [discriminate |]. intros _. exists []. now split.
  - split.
    + simpl. fuel_step; [| discriminate].
      destruct (copies entries ps); cbn [bind]; congruence.
    + intros Hpos. simpl. unfold list_index.
      destruct (nth_error entries i) as [e|] eqn:N.
      * destruct IH2 as (out & -> & F);
          [intros j Ij; apply Hpos; now right |].
        cbn [bind]. eexists. split; [reflexivity |]. now constructor.
      * apply nth_error_None in N.
        specialize (Hpos i ltac:(now left)). lia.
Qed.

Lemma window_end_bounds (entries : list SubtitleEntry) (opts : options)
    (idx : nat) :
  (idx < List.length entries)%nat ->
  (idx < window_end_of entries opts idx <= List.length entries)%nat.
Proof. unfold window_end_of, chunk_size. lia. Qed.

Lemma window_candidates_grown (entries : list SubtitleEntry) (opts : options)
    (idx : nat) (cs : list candidate) :
  (idx < List.length entries)%nat ->
  window_candidates an rd entries opts idx = Ok cs ->
  cs <> []
  /\ Forall (fun c =>
               (idx <= start_idx c)%nat
               /\ (start_idx c + merge_count c <= List.length entries)%nat
               /\ within_limits opts
                    (mk_produced (cand_entry c) (merge_count c))) cs.
Proof.
  intros Hidx H. unfold window_candidates in H.
  pose proof (window_end_bounds entries opts idx Hidx) as W.
  apply candidates_from_grown in H as [NE F]. split.
  - apply NE. destruct (window_end_of entries opts idx - idx)%nat eqn:D;
      [lia | discriminate].
  - eapply Forall_impl; [| exact F]. intros c [I G].
    apply in_seq in I. destruct G as [_ G1 G2 G3 G4].
    unfold within_limits. cbn [absorbed out_entry].
    repeat split; auto; lia.
Qed.

Lemma basic_iteration_spec (entries : list SubtitleEntry) (opts : options)
    (idx : nat) (out : list produced) (idx' : nat) :
  (idx < List.length entries)%nat ->
  basic_iteration an rd entries opts idx = Ok (out, idx') ->
  (idx < idx' <= List.length entries)%nat
  /\ Forall (within_limits opts) out.
Proof.
  intros Hidx H. unfold basic_iteration in H.
  destruct (window_candidates an rd entries opts idx) as [cs| |] eqn:C;
    cbn [bind] in H; try discriminate.
  apply window_candidates_grown in C as [NE F]; [| exact Hidx].
  destruct cs as [|first others]; [contradiction |].
  pose proof (py_max_in cand_key key_gt others first) as I.
  fold (best_of first others) in I.
  rewrite Forall_forall in F. destruct (F _ I) as (B1 & B2 & B3).
  destruct (proj2 (copies_spec entries
                     (seq idx (start_idx (best_of first others) - idx))))
    as (fills & Ef & Ff).
  { intros i Ii. apply in_seq in Ii. destruct B3 as [B3 _].
    cbn [absorbed] in B3. lia. }
  rewrite Ef in H. cbn [bind] in H. injection H as <- <-.
  destruct B3 as (P1 & P2 & P3). cbn [absorbed out_entry] in P1, P2, P3.
  split; [lia |].
  apply Forall_app. split.
  - eapply Forall_impl; [| exact Ff]. intros p Hp. unfold within_limits.
    rewrite Hp. repeat split; try lia.
  - constructor; [| constructor]. unfold within_limits.
    cbn [absorbed out_entry]. auto.
Qed.

Lemma basic_iteration_fuel (entries : list SubtitleEntry) (opts : options)
    (idx : nat) :
  basic_iteration an rd entries opts idx <> NoFuel.
Proof.
  unfold basic_iteration, window_candidates.
  pose proof (candidates_from_fuel opts entries
                (window_end_of entries opts idx)
                (seq idx (window_end_of entries opts idx - idx))) as N.
  destruct (candidates_from an rd entries opts _ _) as [cs| |];
    cbn [bind]; [| discriminate |].
  - destruct cs as [|first others].
    + fuel_step; discriminate.
    + pose proof (proj1 (copies_spec entries
          (seq idx (start_idx (best_of first others) - idx)))) as Nc.
      destruct (copies entries _); cbn [bind]; congruence.
  - exfalso. apply N; [| reflexivity]. unfold window_end_of. lia.
Qed.

Lemma basic_loop_spec (entries : list SubtitleEntry) (opts : options)
    (fuel : nat) :
  forall idx out,
    basic_loop an rd fuel entries opts idx = Ok out ->
    Forall (within_limits opts) out.
Proof.
  induction fuel as [|fuel IH]; intros idx out H; [discriminate H |].
  cbn [basic_loop] in H.
  destruct (idx <? List.length entries)%nat eqn:L.
  - apply Nat.ltb_lt in L.
    destruct (basic_iteration an rd entries opts idx) as [[o i]| |] eqn:It;
      cbn [bind] in H; try discriminate.
    destruct (basic_loop an rd fuel entries opts i) as [rest| |] eqn:R;
      cbn [bind] in H; try discriminate.
    injection H as <-. apply Forall_app. split.
    + now apply (basic_iteration_spec entries opts idx o i).
    + now apply (IH i).
  - injection H as <-. constructor.
Qed.

Lemma basic_loop_fuel (entries : list SubtitleEntry) (opts : options)
    (fuel : nat) :
  forall idx,
    (List.length entries - idx < fuel)%nat ->
    basic_loop an rd fuel entries opts idx <> NoFuel.
Proof.
  induction fuel as [|fuel IH]; intros idx Hf; [lia |].
  cbn [basic_loop].
  destruct (idx <? List.length entries)%nat eqn:L; [| discriminate].
  apply Nat.ltb_lt in L.
  pose proof (basic_iteration_fuel entries opts idx) as N.
  destruct (basic_iteration an rd entries opts idx) as [[o i]| |] eqn:It;
    cbn [bind]; [| discriminate | congruence].
  apply basic_iteration_spec in It as [Adv _]; [| exact L].
  pose proof (IH i ltac:(lia)) as N'.
  destruct (basic_loop an rd fuel entries opts i); cbn [bind]; congruence.
Qed.

(** C7: in the outer loop of the candidate pipeline the cursor strictly
    increases at every iteration, for every entry list, every options value
    (every chunk size, 1 and the number of entries included) and every
    analyzer, and it never passes the end of the list; so
    [merge_basic_entries] terminates: it returns or raises, the fuel of the
    loop is never exhausted. *)
Theorem cursor_strictly_increases (entries : list SubtitleEntry)
    (opts : options) :
  (forall idx out idx',
      (idx < List.length entries)%nat ->
      basic_iteration an rd entries opts idx = Ok (out, idx') ->
      (idx < idx' <= List.length entries)%nat)
  /\ merge_basic_entries an rd entries opts <> NoFuel.
Proof.
  split.
  - intros idx out idx' L H.
    now apply (basic_iteration_spec entries opts idx out idx').
  - unfold merge_basic_entries, merge_basic_trace.
    pose proof (basic_loop_fuel entries opts (S (List.length entries)) 0
                  ltac:(lia)) as N.
    destruct (basic_loop an rd _ entries opts 0); cbn [bind]; congruence.
Qed.

(** C6, amended: every entry the candidate pipeline produces stands for at
    most [maxMergeCount] input entries (for [maxMergeCount >= 1]), and every
    produced entry that fuses two or more input entries has a text of at
    most [maxTextLength] characters.  An entry that stands for a single
    input entry is not checked against [maxTextLength]. *)
Theorem merged_entries_within_limits (entries : list SubtitleEntry)
    (opts : options) (out : list produced) :
  merge_basic_trace an rd entries opts = Ok out ->
  merge_basic_entries an rd entries opts = Ok (map out_entry out)
  /\ forall p, In p out ->
       ((1 <= maxMergeCount opts)%Z ->
        (Z.of_nat (absorbed p) <= maxMergeCount opts)%Z)
       /\ ((2 <= absorbed p)%nat ->
           exists t, text (out_entry p) = Some t
                     /\ (len t <= maxTextLength opts)%Z).
Proof.
  intros H. split.
  - unfold merge_basic_entries. now rewrite H.
  - intros p I. unfold merge_basic_trace in H.
    apply basic_loop_spec in H. rewrite Forall_forall in H.
    destruct (H p I) as (P1 & P2 & P3). split; [lia | exact P3].
Qed.

(** C8: with the analyzer disabled every candidate of a window has score
    [0.0], and the candidate the iteration selects and emits has the
    greatest merge count of the window. *)
Theorem longest_merge_wins_without_analyzer (entries : list SubtitleEntry)
    (opts : options) (idx : nat) (first : candidate)
    (others : list candidate) :
  enableSegmentAnalyzer opts = false ->
  (idx < List.length entries)%nat ->
  window_candidates an rd entries opts idx = Ok (first :: others) ->
  (forall c, In c (first :: others) -> score c = 0%float)
  /\ In (best_of first others) (first :: others)
  /\ (forall c, In c (first :: others) ->
                (merge_count c <= merge_count (best_of first others))%nat)
  /\ exists fills,
       basic_iteration an rd entries opts idx
       = Ok ((fills ++ [mk_produced (cand_entry (best_of first others))
                          (merge_count (best_of first others))])%list,
             (start_idx (best_of first others)
              + merge_count (best_of first others))%nat).
Proof.
  intros Off Hidx C.
  pose proof C as Z0. unfold window_candidates in Z0.
  apply (candidates_from_without_analyzer opts entries _ _ Off) in Z0.
  rewrite Forall_forall in Z0.
  pose proof (py_max_in cand_key key_gt others first) as I.
  fold (best_of first others) in I.
  split; [intros c Ic; now apply Z0 |].
  split; [exact I |].
  split.
  - intros c Ic. apply Nat2Z.inj_le.
    apply (py_max_greatest cand_key key_gt
             (fun c => Z.of_nat (merge_count c)) others first); [| exact Ic].
    intros x y Ix Iy. unfold cand_key.
    destruct (Z0 x Ix) as [-> ->]. destruct (Z0 y Iy) as [-> ->].
    apply key_gt_zero_scores.
  - pose proof C as G. apply window_candidates_grown in G as [_ F];
      [| exact Hidx].
    rewrite Forall_forall in F. destruct (F _ I) as (B1 & B2 & B3).
    destruct (proj2 (copies_spec entries
                       (seq idx (start_idx (best_of first others) - idx))))
      as (fills & Ef & _).
    { intros i Ii. apply in_seq in Ii. destruct B3 as [B3 _].
      cbn [absorbed] in B3. lia. }
    exists fills. unfold basic_iteration. rewrite C. cbn [bind].
    now rewrite Ef.
Qed.

End PipelineFacts.

(** ** Candidate pipeline: sample runs *)

(** C6, the claim as stated fails: a single entry whose text has three
    characters goes through the pipeline with [maxTextLength = 2] and comes
    out with its three characters. *)
Lemma long_single_entry_is_emitted :
  merge_basic_entries no_analyzer no_rounding
    [timed "00:00:01,000" "00:00:02,000" "abc"] (basic_options 2 2)
  = Ok [timed "00:00:01,000" "00:00:02,000" "abc"]
  /\ (maxTextLength (basic_options 2 2) < len "abc")%Z.
Proof. split; reflexivity. Qed.

Lemma merged_entries_within_limits_witness :
  ((1 <= 2)%Z -> (Z.of_nat 2 <= 2)%Z)
  /\ ((2 <= 2)%nat ->
      exists t, Some "abcd"%string = Some t /\ (len t <= 50)%Z).
Proof.
  apply (proj2 (merged_entries_within_limits no_analyzer no_rounding
                  two_short_entries (basic_options 2 50)
                  [mk_produced (timed "00:00:01,000" "00:00:03,000" "abcd") 2]
                  eq_refl)
               (mk_produced (timed "00:00:01,000" "00:00:03,000" "abcd") 2)).
  now left.
Defined.

Lemma cursor_strictly_increases_witness :
  (0 < 2 <= 2)%nat
  /\ merge_basic_entries no_analyzer no_rounding two_short_entries
       (basic_options 2 50) <> NoFuel.
Proof.
  destruct (cursor_strictly_increases no_analyzer no_rounding
              two_short_entries (basic_options 2 50)) as [Adv Term].
  split; [| exact Term].
  apply (Adv 0%nat
             [mk_produced (timed "00:00:01,000" "00:00:03,000" "abcd") 2]
             2%nat); [simpl; lia | reflexivity].
Defined.

Lemma longest_merge_wins_without_analyzer_witness :
  exists first others,
    window_candidates no_analyzer no_rounding two_short_entries
      (basic_options 2 50) 0 = Ok (first :: others)
    /\ merge_count (best_of first others) = 2%nat
    /\ forall c, In c (first :: others) ->
                 (merge_count c <= merge_count (best_of first others))%nat.
Proof.
  eexists. eexists. split; [reflexivity |]. split; [reflexivity |].
  refine (proj1 (proj2 (proj2 (longest_merge_wins_without_analyzer
            no_analyzer no_rounding two_short_entries (basic_options 2 50)
            0 _ _ eq_refl _ eq_refl)))).
  simpl; lia.
Defined.

(** ** A block without a time line *)

Lemma entry_lines_key_error (e : SubtitleEntry) :
  start_time e = None \/ end_time e = None ->
  entry_lines e = Raise KeyError.
Proof.
  unfold entry_lines.
  destruct e as [[i|] [s|] [t|] [x|]]; cbn; intros [H | H];
    congruence.
Qed.

Lemma entry_lines_outcome (e : SubtitleEntry) :
  (exists l, entry_lines e = Ok l) \/ entry_lines e = Raise KeyError.
Proof.
  unfold entry_lines.
  destruct e as [[i|] [s|] [t|] [x|]]; cbn; eauto.
Qed.

Lemma generate_lines_key_error (entries : list SubtitleEntry)
    (e : SubtitleEntry) :
  In e entries ->
  start_time e = None \/ end_time e = None ->
  generate_lines entries = Raise KeyError.
Proof.
  intros I Miss. induction entries as [|a es IH]; [contradiction |].
  cbn [generate_lines]. destruct I as [-> | I].
  - now rewrite entry_lines_key_error.
  - destruct (entry_lines_outcome a) as [[l ->] | ->]; [| reflexivity].
    cbn [bind]. now rewrite (IH I).
Qed.

Section TextOnly.

Variable an : string -> string -> option SegmentAnalysis.
Variable rd : float -> float.

Lemma basic_merge_text_only (opts : options) :
  merge_basic_entries an rd [text_only] opts = Raise KeyError.
Proof.
  unfold merge_basic_entries, merge_basic_trace.
  cbn [List.length basic_loop Nat.ltb Nat.leb].
  unfold basic_iteration, window_candidates.
  assert (W : window_end_of [text_only] opts 0 = 1%nat)
    by (unfold window_end_of, chunk_size; cbn [List.length]; lia).
  rewrite W. reflexivity.
Qed.

Lemma pipeline_text_only (opts : options) :
  apply_merge_pipeline an rd [text_only] opts = Ok [text_only]
  \/ apply_merge_pipeline an rd [text_only] opts = Raise KeyError.
Proof.
  unfold apply_merge_pipeline.
  destruct (enableDuplicateMerge opts); [right; reflexivity |].
  cbn [bind].
  destruct (enableEndStartMerge opts); cbn [bind];
    (destruct (enableBasicMerge opts);
     [right; apply basic_merge_text_only | left; reflexivity]).
Qed.

Lemma process_srt_body_text_only (opts : options)
    (start_t end_t : option string) :
  exists e, process_srt_body an rd "hello" opts start_t end_t = Raise e.
Proof.
  unfold process_srt_body.
  change (parse_srt "hello") with (Ok [text_only]). cbn [bind].
  assert (F : (exists e, filter_by_time_range [text_only] start_t end_t
                         = Raise e)
              \/ filter_by_time_range [text_only] start_t end_t
                 = Ok [text_only]).
  { unfold filter_by_time_range.
    destruct start_t as [[|a s]|]; try (now right).
    destruct end_t as [[|b t]|]; try (now right).
    left.
    destruct (time_to_ms (String a s)) eqn:E1; cbn [bind];
      [| eauto | now apply time_to_ms_never_out_of_fuel in E1].
    destruct (time_to_ms (String b t)) eqn:E2; cbn [bind];
      [| eauto | now apply time_to_ms_never_out_of_fuel in E2].
    eexists. reflexivity. }
  destruct F as [[e ->] | ->]; [now exists e |].
  cbn [bind].
  change (filter_bracket_entries [text_only]) with (Ok [text_only]).
  cbn [bind]. unfold remove_short_entries.
  destruct (enableMinDurationRemove opts); cbn [negb];
    [eexists; reflexivity |].
  cbn [bind].
  destruct (pipeline_text_only opts) as [-> | ->]; cbn [bind];
    eexists; reflexivity.
Qed.

(** C10: the input ["hello"] -- a block of one text line and no [-->]
    line -- is parsed without error into an entry that has a text and
    neither [start_time] nor [end_time]; serializing an entry list that
    holds such an entry raises, so does every stage that reads its
    timestamps, and the whole run [process_srt] fails on that input,
    whatever the options, the time range and the analyzer. *)
Theorem text_only_entry_parses_then_fails :
  parse_srt "hello" = Ok [text_only]
  /\ start_time text_only = None /\ end_time text_only = None
  /\ (forall entries e,
        In e entries -> start_time e = None \/ end_time e = None ->
        generate_srt entries = Raise KeyError)
  /\ filter_by_time_range [text_only]
       (Some "00:00:00,000"%string) (Some "00:00:09,000"%string)
     = Raise KeyError
  /\ (forall opts, enableMinDurationRemove opts = true ->
                   remove_short_entries [text_only] opts = Raise KeyError)
  /\ (forall gap, merge_duplicate_entries [text_only] gap = Raise KeyError)
  /\ (forall opts, merge_basic_entries an rd [text_only] opts = Raise KeyError)
  /\ (forall opts start_t end_t,
        process_srt an rd "hello" opts start_t end_t = Raise ValueError).
Proof.
  repeat split; try reflexivity.
  - intros entries e I Miss. unfold generate_srt.
    now rewrite (generate_lines_key_error entries e I Miss).
  - intros opts En. unfold remove_short_entries. now rewrite En.
  - apply basic_merge_text_only.
  - intros opts start_t end_t. unfold process_srt.
    destruct (process_srt_body_text_only opts start_t end_t) as [e ->].
    reflexivity.
Qed.

End TextOnly.

Lemma text_only_entry_parses_then_fails_witness :
  generate_srt [text_only] = Raise KeyError.
Proof.
  apply (proj1 (proj2 (proj2 (proj2
           (text_only_entry_parses_then_fails no_analyzer no_rounding))))
           [text_only] text_only); now left.
Defined.

(** ** Malformed timestamps, stage by stage *)

Lemma is_short_subtitle_total (s t : string) (threshold : Z) :
  Common.is_short_subtitle s t threshold
  = Ok match time_to_ms s, time_to_ms t with
       | Ok a, Ok b => (b - a <=? threshold)%Z
       | _, _ => false
       end.
Proof.
  unfold Common.is_short_subtitle.
  change Common.time_to_ms with time_to_ms.
  destruct (time_to_ms s) as [a|e|] eqn:Es.
  - destruct (time_to_ms t) as [b|e|] eqn:Et; [reflexivity | |].
    + unfold time_to_ms in Et. destruct (Strptime.strptime t); try discriminate.
      injection Et as <-. reflexivity.
    + now apply time_to_ms_never_out_of_fuel in Et.
  - unfold time_to_ms in Es. destruct (Strptime.strptime s); try discriminate.
    injection Es as <-. reflexivity.
  - now apply time_to_ms_never_out_of_fuel in Es.
Qed.

Lemma remove_short_entries_total (entries : list SubtitleEntry)
    (opts : options) :
  enableMinDurationRemove opts = true ->
  Forall has_times entries ->
  remove_short_entries entries opts
  = Ok (filter (fun e => negb (is_short opts e)) entries).
Proof.
  intros En F. unfold remove_short_entries. rewrite En. cbn [negb].
  induction F as [|e es [Hs He] F IH]; [reflexivity |].
  cbn [filter_r filter]. unfold is_short at 1.
  destruct (start_time e) as [s|]; [| congruence].
  destruct (end_time e) as [t|]; [| congruence].
  cbn [getitem bind]. rewrite is_short_subtitle_total. cbn [bind].
  rewrite IH. cbn [bind].
  now destruct (negb _).
Qed.

Lemma filter_r_raises {A : Type} (keep : A -> result bool) (l : list A)
    (x : A) (e : exn) :
  (forall y, keep y <> NoFuel) ->
  In x l -> keep x = Raise e ->
  exists e', filter_r keep l = Raise e'.
Proof.
  intros NF I K. induction l as [|a l IH]; [contradiction |].
  cbn [filter_r]. destruct I as [-> | I].
  - rewrite K. now exists e.
  - destruct (keep a) as [b|e'|] eqn:Ka; cbn [bind].
    + destruct (IH I) as [e' ->]. now exists e'.
    + now exists e'.
    + now apply NF in Ka.
Qed.

Lemma filter_by_time_range_raises (entries : list SubtitleEntry)
    (start_t end_t : option string) (e : SubtitleEntry) (t : string) :
  truthy start_t = true -> truthy end_t = true ->
  In e entries -> start_time e = Some t -> malformed t ->
  exists x, filter_by_time_range entries start_t end_t = Raise x.
Proof.
  intros Ts Te I St M. unfold filter_by_time_range.
  destruct start_t as [[|a s]|]; try discriminate.
  destruct end_t as [[|b u]|]; try discriminate.
  destruct (time_to_ms (String a s)) eqn:E1; cbn [bind];
    [| eauto | now apply time_to_ms_never_out_of_fuel in E1].
  destruct (time_to_ms (String b u)) eqn:E2; cbn [bind];
    [| eauto | now apply time_to_ms_never_out_of_fuel in E2].
  apply (filter_r_raises _ entries e ValueError); [| exact I |].
  - intros y. repeat fuel_step.
  - rewrite St. cbn [getitem bind]. unfold malformed in M. now rewrite M.
Qed.

Lemma well_formed_not_malformed (o : option string) (t : string) :
  o = Some t -> malformed t -> ~ well_formed_time o.
Proof.
  intros -> M (t' & v & E & K). injection E as <-.
  unfold malformed in M. congruence.
Qed.

(** *** Duplicate merger *)

Lemma duplicate_scan_spec (entries : list SubtitleEntry) (gap : Z)
    (idx : nat) (current : SubtitleEntry) (fuel : nat) :
  forall count cur_end count' end',
    duplicate_scan fuel entries gap idx current count cur_end
    = Ok (count', end') ->
    (count <= count')%nat
    /\ forall i e, (idx + count <= i < idx + count')%nat ->
                   nth_error entries i = Some e ->
                   well_formed_time (end_time e).
Proof.
  induction fuel as [|fuel IH]; intros count cur_end count' end' H;
    [discriminate H |].
  cbn [duplicate_scan] in H.
  destruct (idx + count <? List.length entries)%nat.
  2:{ injection H as <- <-. split; [lia | intros; lia]. }
  unfold list_index in H.
  destruct (nth_error entries (idx + count)) as [next|] eqn:N;
    cbn [bind] in H; [| discriminate].
  destruct (start_time next) as [ns|]; cbn [getitem bind] in H;
    [| discriminate].
  destruct (time_to_ms ns) as [nms| |]; cbn [bind] in H; try discriminate.
  destruct (text current) as [ct|]; cbn [getitem bind] in H; [| discriminate].
  destruct (text next) as [nt|]; cbn [getitem bind] in H; [| discriminate].
  destruct (_ && _).
  2:{ injection H as <- <-. split; [lia | intros; lia]. }
  destruct (end_time next) as [ne|] eqn:En; cbn [getitem bind] in H;
    [| discriminate].
  destruct (time_to_ms ne) as [ems| |] eqn:Tn; cbn [bind] in H;
    try discriminate.
  apply IH in H as [L R]. split; [lia |].
  intros i e Hi Ni.
  destruct (Nat.eq_dec i (idx + count)) as [-> | D].
  - rewrite N in Ni. injection Ni as <-. rewrite En. now exists ne, ems.
  - apply (R i e); [lia | exact Ni].
Qed.

Lemma duplicate_scan_fuel (entries : list SubtitleEntry) (gap : Z)
    (idx : nat) (current : SubtitleEntry) (fuel : nat) :
  forall count cur_end,
    (List.length entries - (idx + count) < fuel)%nat ->
    duplicate_scan fuel entries gap idx current count cur_end <> NoFuel.
Proof.
  induction fuel as [|fuel IH]; intros count cur_end Hf; [lia |].
  cbn [duplicate_scan].
  destruct (idx + count <? List.length entries)%nat eqn:L; [| discriminate].
  apply Nat.ltb_lt in L.
  do 5 (fuel_step; [| discriminate]).
  - fuel_step; [| discriminate].
    fuel_step; [| discriminate].
    fuel_step; [| discriminate].
    apply IH. lia.
Qed.

Lemma duplicate_loop_spec (entries : list SubtitleEntry) (gap : Z)
    (fuel : nat) :
  forall idx out,
    duplicate_loop fuel entries gap idx = Ok out ->
    forall i e, (idx <= i)%nat -> nth_error entries i = Some e ->
                well_formed_time (end_time e).
Proof.
  induction fuel as [|fuel IH]; intros idx out H i e Hi Ni;
    [discriminate H |].
  cbn [duplicate_loop] in H.
  destruct (idx <? List.length entries)%nat eqn:L.
  2:{ apply Nat.ltb_ge in L.
      assert (nth_error entries i = None) by (apply nth_error_None; lia).
      congruence. }
  unfold list_index in H.
  destruct (nth_error entries idx) as [current|] eqn:N; cbn [bind] in H;
    [| discriminate].
  destruct (end_time current) as [ce|] eqn:Ec; cbn [getitem bind] in H;
    [| discriminate].
  destruct (time_to_ms ce) as [cms| |] eqn:Tc; cbn [bind] in H;
    try discriminate.
  destruct (duplicate_scan _ entries gap idx current 1 cms)
    as [[dc ems]| |] eqn:Sc; cbn [bind] in H; try discriminate.
  apply duplicate_scan_spec in Sc as [Ldc R].
  assert (Cur : i = idx -> well_formed_time (end_time e)).
  { intros ->. rewrite N in Ni. injection Ni as <-. rewrite Ec.
    now exists ce, cms. }
  destruct (1 <? dc)%nat eqn:D.
  - destruct (start_time current); cbn [getitem bind] in H; [| discriminate].
    destruct (ms_to_time ems); cbn [bind] in H; try discriminate.
    destruct (text current); cbn [getitem bind] in H; [| discriminate].
    destruct (duplicate_loop fuel entries gap (idx + dc)) eqn:Rec;
      cbn [bind] in H; try discriminate.
    destruct (Nat.eq_dec i idx) as [E | NE]; [auto |].
    destruct (Nat.lt_ge_cases i (idx + dc)) as [Lt | Ge].
    + apply (R i e); [lia | exact Ni].
    + apply (IH _ _ Rec i e Ge Ni).
  - destruct (duplicate_loop fuel entries gap (idx + 1)) eqn:Rec;
      cbn [bind] in H; try discriminate.
    destruct (Nat.eq_dec i idx) as [E | NE]; [auto |].
    apply (IH _ _ Rec i e); [lia | exact Ni].
Qed.

Lemma duplicate_loop_fuel (entries : list SubtitleEntry) (gap : Z)
    (fuel : nat) :
  forall idx,
    (List.length entries - idx < fuel)%nat ->
    duplicate_loop fuel entries gap idx <> NoFuel.
Proof.
  induction fuel as [|fuel IH]; intros idx Hf; [lia |].
  cbn [duplicate_loop].
  destruct (idx <? List.length entries)%nat eqn:L; [| discriminate].
  apply Nat.ltb_lt in L.
  do 3 (fuel_step; [| discriminate]).
  match goal with
  | |- bind (duplicate_scan ?f ?e ?g ?i ?c ?n ?m) _ <> NoFuel =>
      pose proof (duplicate_scan_fuel e g i c f n m ltac:(lia)) as NF;
      destruct (duplicate_scan f e g i c n m) as [[dc ems]| |] eqn:Sc;
      cbn [bind]; [| discriminate | congruence]
  end.
  apply duplicate_scan_spec in Sc as [Ldc _].
  destruct (1 <? dc)%nat.
  - fuel_step; [| discriminate]. unfold ms_to_time. cbn [bind].
    fuel_step; [| discriminate].
    pose proof (IH (idx + dc)%nat ltac:(lia)) as NF'.
    destruct (duplicate_loop fuel entries gap (idx + dc)); cbn [bind];
      congruence.
  - pose proof (IH (idx + 1)%nat ltac:(lia)) as NF'.
    destruct (duplicate_loop fuel entries gap (idx + 1)); cbn [bind];
      congruence.
Qed.

Lemma merge_duplicate_entries_raises (entries : list SubtitleEntry) (gap : Z)
    (e : SubtitleEntry) (t : string) :
  In e entries -> end_time e = Some t -> malformed t ->
  exists x, merge_duplicate_entries entries gap = Raise x.
Proof.
  intros I Et M. unfold merge_duplicate_entries.
  destruct (duplicate_loop _ entries gap 0) as [out|x|] eqn:H.
  - exfalso. apply In_nth_error in I as [i Ni].
    apply (well_formed_not_malformed _ _ Et M).
    apply (duplicate_loop_spec _ _ _ _ _ H i e); [lia | exact Ni].
  - now exists x.
  - exfalso. revert H. apply duplicate_loop_fuel. lia.
Qed.

(** *** Boundary merger *)

Lemma end_start_scan_spec (entries : list SubtitleEntry) (gap : Z)
    (space : bool) (fuel : nat) :
  forall merged idx merged' idx',
    end_start_scan fuel entries gap space merged idx = Ok (merged', idx') ->
    (idx <= idx')%nat
    /\ forall i e, (idx < i <= idx' + 1)%nat ->
                   nth_error entries i = Some e ->
                   well_formed_time (start_time e).
Proof.
  induction fuel as [|fuel IH]; intros merged idx merged' idx' H;
    [discriminate H |].
  cbn [end_start_scan] in H.
  destruct (idx + 1 <? List.length entries)%nat eqn:L.
  2:{ injection H as <- <-. split; [lia |]. intros i e Hi Ni.
      apply Nat.ltb_ge in L.
      assert (nth_error entries i = None) by (apply nth_error_None; lia).
      congruence. }
  unfold list_index in H.
  destruct (nth_error entries (idx + 1)) as [next|] eqn:N;
    cbn [bind] in H; [| discriminate].
  destruct (end_time merged) as [ce|]; cbn [getitem bind] in H;
    [| discriminate].
  destruct (time_to_ms ce) as [cms| |]; cbn [bind] in H; try discriminate.
  destruct (start_time next) as [ns|] eqn:Sn; cbn [getitem bind] in H;
    [| discriminate].
  destruct (time_to_ms ns) as [nms| |] eqn:Tn; cbn [bind] in H;
    try discriminate.
  assert (Here : forall i e, i = (idx + 1)%nat -> nth_error entries i = Some e ->
                             well_formed_time (start_time e)).
  { intros i e -> Ni. rewrite N in Ni. injection Ni as <-. rewrite Sn.
    now exists ns, nms. }
  assert (Stop : (idx <= idx)%nat
                 /\ forall i e, (idx < i <= idx + 1)%nat ->
                                nth_error entries i = Some e ->
                                well_formed_time (start_time e)).
  { split; [lia |]. intros i e Hi. apply Here. lia. }
  destruct (gap <? nms - cms)%Z; [injection H as <- <-; exact Stop |].
  destruct (text merged) as [ct|]; cbn [getitem bind] in H; [| discriminate].
  destruct (text next) as [nt|]; cbn [getitem bind] in H; [| discriminate].
  destruct (last_word _) as [w|]; [| injection H as <- <-; exact Stop].
  destruct (Py.split_ws (Py.strip nt)) as [|first others];
    [injection H as <- <-; exact Stop |].
  destruct (String.eqb w first); [| injection H as <- <-; exact Stop].
  destruct (end_time next) as [ne|]; cbn [getitem bind] in H;
    [| discriminate].
  apply IH in H as [Le R]. split; [lia |].
  intros i e Hi Ni.
  destruct (Nat.eq_dec i (idx + 1)) as [E | NE]; [now apply (Here i e) |].
  apply (R i e); [lia | exact Ni].
Qed.

Lemma end_start_scan_fuel (entries : list SubtitleEntry) (gap : Z)
    (space : bool) (fuel : nat) :
  forall merged idx,
    (List.length entries - (idx + 1) < fuel)%nat ->
    end_start_scan fuel entries gap space merged idx <> NoFuel.
Proof.
  induction fuel as [|fuel IH]; intros merged idx Hf; [lia |].
  cbn [end_start_scan].
  destruct (idx + 1 <? List.length entries)%nat eqn:L; [| discriminate].
  apply Nat.ltb_lt in L.
  do 5 (fuel_step; [| discriminate]).
  destruct (_ <? _)%Z; [discriminate |].
  do 2 (fuel_step; [| discriminate]).
  destruct (last_word _); [| discriminate].
  destruct (Py.split_ws _); [discriminate |].
  fuel_step; [| discriminate].
  fuel_step; [| discriminate].
  apply IH. lia.
Qed.

Lemma end_start_loop_spec (entries : list SubtitleEntry) (gap : Z)
    (space : bool) (fuel : nat) :
  forall idx out,
    end_start_loop fuel entries gap space idx = Ok out ->
    forall i e, (idx < i)%nat -> nth_error entries i = Some e ->
                well_formed_time (start_time e).
Proof.
  induction fuel as [|fuel IH]; intros idx out H i e Hi Ni;
    [discriminate H |].
  cbn [end_start_loop] in H.
  destruct (idx <? List.length entries)%nat eqn:L.
  2:{ apply Nat.ltb_ge in L.
      assert (nth_error entries i = None) by (apply nth_error_None; lia).
      congruence. }
  unfold list_index in H.
  destruct (nth_error entries idx) as [first|]; cbn [bind] in H;
    [| discriminate].
  destruct (end_start_scan _ entries gap space first idx)
    as [[m idx']| |] eqn:Sc; cbn [bind] in H; try discriminate.
  apply end_start_scan_spec in Sc as [Le R].
  destruct (end_start_loop fuel entries gap space (idx' + 1)) eqn:Rec;
    cbn [bind] in H; try discriminate.
  destruct (Nat.le_gt_cases i (idx' + 1)) as [A | B].
  - apply (R i e); [lia | exact Ni].
  - apply (IH _ _ Rec i e B Ni).
Qed.

Lemma end_start_loop_fuel (entries : list SubtitleEntry) (gap : Z)
    (space : bool) (fuel : nat) :
  forall idx,
    (List.length entries - idx < fuel)%nat ->
    end_start_loop fuel entries gap space idx <> NoFuel.
Proof.
  induction fuel as [|fuel IH]; intros idx Hf; [lia |].
  cbn [end_start_loop].
  destruct (idx <? List.length entries)%nat eqn:L; [| discriminate].
  apply Nat.ltb_lt in L.
  fuel_step; [| discriminate].
  match goal with
  | |- bind (end_start_scan ?f ?e ?g ?s ?m ?i) _ <> NoFuel =>
      pose proof (end_start_scan_fuel e g s f m i ltac:(lia)) as NF;
      destruct (end_start_scan f e g s m i) as [[m' idx']| |] eqn:Sc;
      cbn [bind]; [| discriminate | congruence]
  end.
  apply end_start_scan_spec in Sc as [Le _].
  pose proof (IH (idx' + 1)%nat ltac:(lia)) as NF'.
  destruct (end_start_loop fuel entries gap space (idx' + 1)); cbn [bind];
    congruence.
Qed.

Lemma merge_end_start_entries_raises (entries : list SubtitleEntry)
    (gap : Z) (space : bool) (max_text_length : Z) (i : nat)
    (e : SubtitleEntry) (t : string) :
  (1 <= i)%nat -> nth_error entries i = Some e ->
  start_time e = Some t -> malformed t ->
  exists x,
    merge_end_start_entries entries gap space max_text_length = Raise x.
Proof.
  intros Hi Ni St M. unfold merge_end_start_entries.
  destruct (end_start_loop _ entries gap space 0) as [out|x|] eqn:H.
  - exfalso. apply (well_formed_not_malformed _ _ St M).
    apply (end_start_loop_spec _ _ _ _ _ _ H i e); [lia | exact Ni].
  - now exists x.
  - exfalso. revert H. apply end_start_loop_fuel. lia.
Qed.

(** *** Candidate pipeline *)

Lemma merge_basic_entries_raises
    (an : string -> string -> option SegmentAnalysis) (rd : float -> float)
    (e0 e1 : SubtitleEntry) (rest : list SubtitleEntry) (opts : options)
    (txt s t : string) :
  text e0 = Some txt -> start_time e0 = Some s -> end_time e0 = Some t ->
  malformed t ->
  (2 <= maxMergeCount opts)%Z -> (2 <= candidateChunkSize opts)%Z ->
  merge_basic_entries an rd (e0 :: e1 :: rest) opts = Raise ValueError.
Proof.
  intros Tx St Et M Hm Hc.
  unfold merge_basic_entries, merge_basic_trace.
  cbn [List.length basic_loop Nat.ltb Nat.leb].
  unfold basic_iteration, window_candidates.
  assert (W : exists k, window_end_of (e0 :: e1 :: rest) opts 0 = S (S k)).
  { unfold window_end_of, chunk_size. cbn [List.length].
    exists (Nat.min (S (S (List.length rest)))
                    (0 + Z.to_nat (Z.max 1 (candidateChunkSize opts))) - 2)%nat.
    lia. }
  destruct W as [k ->].
  cbn [Nat.sub seq candidates_from list_index nth_error bind].
  rewrite Tx, Et. cbn [getitem bind List.length grow].
  rewrite St. cbn [getitem bind].
  replace (maxMergeCount opts <=? Z.of_nat 1)%Z with false
    by (symmetry; apply Z.leb_gt; lia).
  replace (chunk_size opts <=? Z.of_nat 1)%Z with false
    by (symmetry; apply Z.leb_gt; unfold chunk_size; lia).
  cbn [orb Nat.add Nat.leb list_index nth_error bind].
  unfold _can_extend_merge. unfold malformed in M. rewrite M.
  reflexivity.
Qed.

(** *** The run as a whole *)

(** C2, the claim as stated fails: the entry's start ["bad"] is malformed,
    the minimum-duration filter is enabled, and the run returns its output
    with the entry kept. *)
Lemma duration_filter_keeps_malformed_entry :
  time_to_ms "bad" = Raise ValueError
  /\ process_srt no_analyzer no_rounding srt_with_bad_start
       duration_filter_options None None
     = Ok (mk_process_result
             ("1" ++ newline ++ "bad --> 00:00:02,000" ++ newline ++ "x"
              ++ newline)%string 1 1).
Proof. split; reflexivity. Qed.

(** C2, amended: a malformed timestamp raises a [ValueError] in every stage
    that converts it with [time_to_ms], and the error ends the run with no
    output: the time-range filter converts the start of every entry, the
    duplicate merger the end of every entry, the boundary merger the start
    of every entry after the first, the candidate pipeline the end of the
    first entry when it tries to extend it (two entries or more,
    [maxMergeCount >= 2], [candidateChunkSize >= 2]).  The
    minimum-duration filter is the
    exception: it catches the error, never raises on entries that have both
    timestamps, and keeps every entry whose start or end is malformed. *)
Theorem malformed_timestamp_by_stage
    (an : string -> string -> option SegmentAnalysis) (rd : float -> float) :
  (forall entries opts,
      enableMinDurationRemove opts = true -> Forall has_times entries ->
      remove_short_entries entries opts
      = Ok (filter (fun e => negb (is_short opts e)) entries)
      /\ forall e s t,
           In e entries -> start_time e = Some s -> end_time e = Some t ->
           malformed s \/ malformed t ->
           In e (filter (fun e => negb (is_short opts e)) entries))
  /\ (forall entries start_t end_t e t,
        truthy start_t = true -> truthy end_t = true ->
        In e entries -> start_time e = Some t -> malformed t ->
        exists x, filter_by_time_range entries start_t end_t = Raise x)
  /\ (forall entries gap e t,
        In e entries -> end_time e = Some t -> malformed t ->
        exists x, merge_duplicate_entries entries gap = Raise x)
  /\ (forall entries gap space max_text_length i e t,
        (1 <= i)%nat -> nth_error entries i = Some e ->
        start_time e = Some t -> malformed t ->
        exists x,
          merge_end_start_entries entries gap space max_text_length
          = Raise x)
  /\ (forall e0 e1 rest opts txt s t,
        text e0 = Some txt -> start_time e0 = Some s ->
        end_time e0 = Some t -> malformed t ->
        (2 <= maxMergeCount opts)%Z -> (2 <= candidateChunkSize opts)%Z ->
        merge_basic_entries an rd (e0 :: e1 :: rest) opts = Raise ValueError)
  /\ (forall srt_text opts start_t end_t x,
        process_srt_body an rd srt_text opts start_t end_t = Raise x ->
        process_srt an rd srt_text opts start_t end_t = Raise ValueError).
Proof.
  repeat apply conj.
  - intros entries opts En F. split.
    + now apply remove_short_entries_total.
    + intros e s t I Hs Ht M. apply filter_In. split; [exact I |].
      unfold is_short. rewrite Hs, Ht. unfold malformed in M.
      destruct M as [M | M]; rewrite M; [reflexivity |].
      now destruct (time_to_ms s).
  - intros. eapply filter_by_time_range_raises; eassumption.
  - intros. eapply merge_duplicate_entries_raises; eassumption.
  - intros. eapply merge_end_start_entries_raises; eassumption.
  - intros. eapply merge_basic_entries_raises; eassumption.
  - intros srt_text opts start_t end_t x H. unfold process_srt.
    now rewrite H.
Qed.

Lemma malformed_timestamp_by_stage_witness :
  In (timed "bad" "00:00:02,000" "x")
     (filter (fun e => negb (is_short duration_filter_options e))
             [timed "bad" "00:00:02,000" "x"])
  /\ exists x,
       merge_duplicate_entries [timed "00:00:01,000" "bad" "x"] 300 = Raise x.
Proof.
  destruct (malformed_timestamp_by_stage no_analyzer no_rounding)
    as (Keep & _ & Dup & _).
  split.
  - apply (proj2 (Keep [timed "bad" "00:00:02,000" "x"]
                       duration_filter_options eq_refl
                       ltac:(repeat constructor; discriminate))
                 (timed "bad" "00:00:02,000" "x")
                 "bad"%string "00:00:02,000"%string);
      first [now left | reflexivity].
  - apply (Dup [timed "00:00:01,000" "bad" "x"] 300%Z
                (timed "00:00:01,000" "bad" "x") "bad"%string);
      first [now left | reflexivity].
Defined.

(** ** Words and occurrences *)

Lemma prefix_refl_app (w y : string) : String.prefix w (w ++ y) = true.
Proof.
  induction w as [|c w IH]; simpl; [now destruct y |].
  destruct (ascii_dec c c); [exact IH | congruence].
Qed.

Lemma prefix_before_space (w x y : string) (c : ascii) :
  Py.all_chars nonspace w = true -> Py.is_space c = true ->
  String.prefix w (x ++ String c y) = String.prefix w x.
Proof.
  intros Hw Hc. revert w Hw.
  induction x as [|a x IH]; intros [|d w] Hw; simpl; try reflexivity.
  - simpl in Hw. apply andb_true_iff in Hw as [Hd _].
    destruct (ascii_dec d c) as [-> | _]; [| reflexivity].
    unfold nonspace in Hd. rewrite Hc in Hd. discriminate.
  - simpl in Hw. apply andb_true_iff in Hw as [_ Hw].
    destruct (ascii_dec d a); [now apply IH | reflexivity].
Qed.

Lemma prefix_length (w x : string) :
  String.prefix w x = true -> (String.length w <= String.length x)%nat.
Proof.
  revert x. induction w as [|d w IH]; intros [|a x] H; simpl in *;
    try lia; try discriminate.
  destruct (ascii_dec d a); [| discriminate].
  apply IH in H. lia.
Qed.

Lemma count_from_skip (w a y : string) :
  Py.count_from w (a ++ y) (String.length a) = Py.count_from w y 0.
Proof.
  induction a as [|c a IH]; simpl; [| exact IH].
  destruct y; reflexivity.
Qed.

Lemma count_unfold (w s : string) :
  w <> EmptyString -> Py.count w s = Py.count_from w s 0.
Proof. destruct w; [congruence | reflexivity]. Qed.

(** An occurrence at the very start is counted, and the scan goes on after
    it. *)
Lemma count_leading (w y : string) :
  w <> EmptyString -> Py.count w (w ++ y) = S (Py.count w y).
Proof.
  intros Hw. rewrite !count_unfold by assumption.
  destruct w as [|c w]; [congruence |].
  change (String c w ++ y)%string with (String c (w ++ y)).
  cbn [Py.count_from].
  change (String c (w ++ y)) with (String c w ++ y)%string.
  rewrite prefix_refl_app. cbn [String.length Nat.sub].
  rewrite Nat.sub_0_r. now rewrite count_from_skip.
Qed.

Lemma count_from_split (w y : string) (c : ascii) :
  word w -> Py.is_space c = true ->
  forall x k, (k <= String.length x)%nat ->
    Py.count_from w (x ++ String c y) k
    = (Py.count_from w x k + Py.count_from w y 0)%nat.
Proof.
  intros [Hne Hw] Hc.
  induction x as [|a x IH]; intros k Hk.
  - simpl in Hk. assert (k = 0%nat) as -> by lia.
    pose proof (prefix_before_space w "" y c Hw Hc) as P.
    cbn [String.append] in P. cbn [String.append Py.count_from].
    rewrite P. destruct w; [congruence | reflexivity].
  - change (String a x ++ String c y)%string
      with (String a (x ++ String c y)).
    destruct k as [|k].
    + cbn [Py.count_from].
      change (String a (x ++ String c y))
        with (String a x ++ String c y)%string.
      rewrite (prefix_before_space w (String a x) y c Hw Hc).
      destruct (String.prefix w (String a x)) eqn:P.
      * apply prefix_length in P. cbn [String.length] in P.
        rewrite IH by lia. reflexivity.
      * apply IH. lia.
    + cbn [Py.count_from]. apply IH. simpl in Hk. lia.
Qed.

(** A blank cuts the count in two: no occurrence of a word covers it. *)
Lemma count_split (w x y : string) (c : ascii) :
  word w -> Py.is_space c = true ->
  Py.count w (x ++ String c y) = (Py.count w x + Py.count w y)%nat.
Proof.
  intros Hw Hc. rewrite !count_unfold by apply Hw.
  apply count_from_split; [assumption.. | lia].
Qed.

Lemma count_empty (w : string) : w <> EmptyString -> Py.count w "" = 0%nat.
Proof. intros H. now rewrite count_unfold. Qed.

Lemma count_space_head (w y : string) (c : ascii) :
  word w -> Py.is_space c = true -> Py.count w (String c y) = Py.count w y.
Proof.
  intros Hw Hc. pose proof (count_split w "" y c Hw Hc) as H.
  cbn [String.append] in H. rewrite H, count_empty by apply Hw. reflexivity.
Qed.

Lemma count_self (w : string) : w <> EmptyString -> Py.count w w = 1%nat.
Proof.
  intros H. pose proof (count_leading w "" H) as E.
  now rewrite append_nil_r, count_empty in E.
Qed.

(** *** Words of a text *)

Lemma starts_word_split (s : string) :
  Py.starts_word s = true -> Py.split_ws s <> [].
Proof.
  destruct s as [|c s]; [discriminate |]. cbn [Py.starts_word Py.split_ws].
  intros H. apply negb_true_iff in H. rewrite H.
  destruct (Py.starts_word s); [destruct (Py.split_ws s) |]; discriminate.
Qed.

Lemma split_ws_words (s : string) : Forall word (Py.split_ws s).
Proof.
  induction s as [|c s IH]; [constructor |].
  cbn [Py.split_ws]. destruct (Py.is_space c) eqn:C; [exact IH |].
  assert (Wc : forall t, word t \/ t = EmptyString -> word (String c t)).
  { intros t [[_ Ht] | ->]; (split; [discriminate |]);
      cbn [Py.all_chars]; unfold nonspace at 1; rewrite C; [exact Ht | easy]. }
  destruct (Py.starts_word s).
  - destruct (Py.split_ws s) as [|t ts].
    + constructor; [| constructor]. apply Wc. now right.
    + inversion IH as [|? ? Ht Hts]; subst.
      constructor; [apply Wc; now left | exact Hts].
  - constructor; [apply Wc; now right | exact IH].
Qed.

(** The first word and what follows it. *)
Lemma split_ws_head (s : string) :
  Py.starts_word s = true ->
  exists t rest,
    s = (t ++ rest)%string /\ Py.starts_word rest = false
    /\ Py.split_ws s = t :: Py.split_ws rest.
Proof.
  induction s as [|c s IH]; [discriminate |].
  cbn [Py.starts_word Py.split_ws]. intros H.
  apply negb_true_iff in H. rewrite H.
  destruct (Py.starts_word s) eqn:W.
  - destruct (IH eq_refl) as (t & rest & E & R & S).
    exists (String c t), rest. rewrite S. cbn [String.append].
    now rewrite <- E.
  - exists (String c ""), s. now repeat split.
Qed.

Lemma occurrences_app (w : string) (l1 l2 : list string) :
  occurrences w (l1 ++ l2) = (occurrences w l1 + occurrences w l2)%nat.
Proof. unfold occurrences. now rewrite map_app, list_sum_app. Qed.

Lemma starts_word_false (s : string) :
  Py.starts_word s = false ->
  s = EmptyString \/ exists c r, s = String c r /\ Py.is_space c = true.
Proof.
  destruct s as [|c r]; [now left |]. cbn [Py.starts_word].
  intros H. apply negb_false_iff in H. right. now exists c, r.
Qed.

Lemma occurrences_cons (w t : string) (l : list string) :
  occurrences w (t :: l) = (Py.count w t + occurrences w l)%nat.
Proof. reflexivity. Qed.

Lemma occurrences_nil (w : string) : occurrences w [] = 0%nat.
Proof. reflexivity. Qed.

(** The occurrences of a word in a text are those in its words. *)
Lemma count_by_words (w s : string) :
  word w -> Py.count w s = occurrences w (Py.split_ws s).
Proof.
  intros Hw. induction s as [|c s IH].
  - now rewrite count_empty by apply Hw.
  - cbn [Py.split_ws]. destruct (Py.is_space c) eqn:C.
    + now rewrite count_space_head.
    + destruct (Py.starts_word s) eqn:W.
      * destruct (split_ws_head s W) as (t & rest & E & R & S).
        rewrite S in IH |- *. rewrite occurrences_cons in *.
        rewrite E in IH |- *.
        destruct (starts_word_false rest R) as [-> | (d & r & -> & D)].
        -- rewrite append_nil_r in *. cbn [Py.split_ws] in *.
           rewrite occurrences_nil in *. lia.
        -- rewrite (count_split w t r d Hw D) in IH.
           change (String c (t ++ String d r))
             with (String c t ++ String d r)%string.
           rewrite (count_split w (String c t) r d Hw D). lia.
      * rewrite occurrences_cons, <- IH.
        destruct (starts_word_false s W) as [-> | (d & r & -> & D)].
        -- rewrite (count_empty w) by apply Hw. lia.
        -- change (String c (String d r))
             with (String c "" ++ String d r)%string.
           rewrite (count_split w (String c "") r d Hw D).
           now rewrite (count_space_head w r d Hw D).
Qed.

Lemma space_is_space : Py.is_space " " = true.
Proof. reflexivity. Qed.

Lemma count_join (w : string) (l : list string) :
  word w -> Py.count w (Py.join " " l) = occurrences w l.
Proof.
  intros Hw. unfold Py.join.
  induction l as [|t [|u l] IH].
  - now rewrite count_empty by apply Hw.
  - rewrite occurrences_cons, occurrences_nil. cbn [String.concat]. lia.
  - rewrite occurrences_cons, <- IH.
    change (String.concat " " (t :: u :: l))
      with (t ++ String " " (String.concat " " (u :: l)))%string.
    now rewrite (count_split w t _ " " Hw space_is_space).
Qed.

(** *** Trimming *)

Lemma rstrip_cons (c : ascii) (s : string) :
  Py.rstrip s <> EmptyString ->
  Py.rstrip (String c s) = String c (Py.rstrip s).
Proof.
  cbn [Py.rstrip]. destruct (Py.rstrip s); [congruence | reflexivity].
Qed.

Lemma rstrip_head (s : string) (d : ascii) (r : string) :
  Py.rstrip s = String d r -> exists s', s = String d s'.
Proof.
  destruct s as [|c s]; [discriminate |]. cbn [Py.rstrip].
  destruct (Py.rstrip s).
  - destruct (Py.is_space c); [discriminate |].
    intros H. injection H as -> _. now exists s.
  - intros H. injection H as -> _. now exists s.
Qed.

Lemma rstrip_empty_split (s : string) :
  Py.rstrip s = EmptyString ->
  Py.split_ws s = [] /\ Py.starts_word s = false.
Proof.
  induction s as [|c s IH]; [now split |].
  cbn [Py.rstrip Py.split_ws Py.starts_word].
  destruct (Py.rstrip s); [| discriminate].
  destruct (Py.is_space c); [| discriminate].
  intros _. split; [now apply IH | reflexivity].
Qed.

Lemma split_ws_empty_rstrip (s : string) :
  Py.split_ws s = [] -> Py.rstrip s = EmptyString.
Proof.
  induction s as [|c s IH]; [reflexivity |].
  cbn [Py.split_ws Py.rstrip].
  destruct (Py.is_space c).
  - intros H. now rewrite (IH H).
  - destruct (Py.starts_word s); [destruct (Py.split_ws s) |]; discriminate.
Qed.

Lemma starts_word_rstrip (s : string) :
  Py.rstrip s <> EmptyString ->
  Py.starts_word (Py.rstrip s) = Py.starts_word s.
Proof.
  intros H. destruct (Py.rstrip s) as [|d r] eqn:E; [congruence |].
  destruct (rstrip_head s d r E) as [s' ->]. reflexivity.
Qed.

Lemma split_ws_rstrip (s : string) : Py.split_ws (Py.rstrip s) = Py.split_ws s.
Proof.
  induction s as [|c s IH]; [reflexivity |].
  destruct (string_dec (Py.rstrip s) EmptyString) as [E | NE].
  - destruct (rstrip_empty_split s E) as [S W].
    cbn [Py.rstrip Py.split_ws]. rewrite E, S, W.
    destruct (Py.is_space c) eqn:C; [reflexivity |].
    cbn [Py.split_ws]. now rewrite C.
  - rewrite rstrip_cons by exact NE.
    cbn [Py.split_ws].
    rewrite starts_word_rstrip by exact NE. now rewrite IH.
Qed.

Lemma split_ws_lstrip (s : string) : Py.split_ws (Py.lstrip s) = Py.split_ws s.
Proof.
  induction s as [|c s IH]; [reflexivity |].
  cbn [Py.lstrip]. destruct (Py.is_space c) eqn:C; [| reflexivity].
  cbn [Py.split_ws]. now rewrite C.
Qed.

Lemma split_ws_strip (s : string) : Py.split_ws (Py.strip s) = Py.split_ws s.
Proof. unfold Py.strip. now rewrite split_ws_rstrip, split_ws_lstrip. Qed.

(** *** The last word of a text *)

Lemma word_boundary_cons (c : ascii) (p : string) :
  word_boundary p -> (p = EmptyString -> Py.is_space c = true) ->
  word_boundary (String c p).
Proof.
  intros [-> | (p' & d & -> & D)] H; right.
  - exists EmptyString, c. split; [reflexivity | now apply H].
  - exists (String c p'), d. now split.
Qed.

Lemma last_default {A : Type} (l : list A) (d d' : A) :
  l <> [] -> List.last l d = List.last l d'.
Proof.
  induction l as [|x l IH]; [congruence |]. intros _.
  destruct l as [|y l]; [reflexivity |].
  change (List.last (y :: l) d = List.last (y :: l) d').
  apply IH. discriminate.
Qed.

Lemma last_in {A : Type} (l : list A) :
  forall a, In (List.last l a) (a :: l).
Proof.
  induction l as [|x l IH]; intros a; [now left |]. right.
  rewrite (last_default (x :: l) a x) by discriminate.
  replace (List.last (x :: l) x) with (List.last l x)
    by (destruct l; reflexivity).
  apply IH.
Qed.

Lemma last_word_cons (a b : string) (l : list string) :
  last_word (a :: b :: l) = last_word (b :: l).
Proof.
  cbn [last_word]. f_equal. destruct l as [|x l]; [reflexivity |].
  change (List.last (x :: l) a = List.last (x :: l) b).
  apply last_default. discriminate.
Qed.

Lemma word_starts (w : string) : word w -> Py.starts_word w = true.
Proof.
  intros [Hne Hw]. destruct w as [|c w]; [congruence |].
  cbn [Py.all_chars] in Hw. apply andb_true_iff in Hw as [Hc _]. exact Hc.
Qed.

Lemma rstrip_prefix_head (s p w : string) :
  Py.rstrip s = (p ++ w)%string -> p <> EmptyString ->
  Py.starts_word p = Py.starts_word s.
Proof.
  intros E Hp. destruct p as [|d p]; [congruence |].
  cbn [String.append] in E. destruct (rstrip_head s d _ E) as [s' ->].
  reflexivity.
Qed.

Lemma split_ws_nonempty_prefix (p : string) :
  Py.split_ws p <> [] -> p <> EmptyString.
Proof. intros H ->. now apply H. Qed.

Lemma last_word_rstrip (s : string) :
  forall w,
    last_word (Py.split_ws s) = Some w ->
    exists p,
      Py.rstrip s = (p ++ w)%string /\ word_boundary p
      /\ Py.split_ws p = removelast (Py.split_ws s).
Proof.
  induction s as [|c s IH]; intros w H; [discriminate H |].
  assert (Ww : word w).
  { pose proof (split_ws_words (String c s)) as F.
    rewrite Forall_forall in F. apply F.
    destruct (Py.split_ws (String c s)) as [|a l]; [discriminate H |].
    cbn [last_word] in H. injection H as <-. apply last_in. }
  assert (Nonempty : forall p, Py.rstrip s = (p ++ w)%string ->
                               Py.rstrip s <> EmptyString).
  { intros p E. rewrite E. destruct Ww as [Hne _].
    destruct p; [exact Hne | discriminate]. }
  cbn [Py.split_ws] in H |- *.
  destruct (Py.is_space c) eqn:C.
  - destruct (IH w H) as (p & E & K & SP).
    exists (String c p). rewrite rstrip_cons by now apply (Nonempty p).
    rewrite E. repeat split.
    + now apply word_boundary_cons.
    + cbn [Py.split_ws]. now rewrite C.
  - destruct (Py.starts_word s) eqn:W.
    + destruct (split_ws_head s W) as (t & rest & _ & _ & S).
      rewrite S in H |- *. rewrite S in IH.
      destruct (Py.split_ws rest) as [|u us].
      * cbn [last_word List.last] in H. injection H as <-.
        destruct (IH t eq_refl) as (p & E & K & SP).
        cbn [removelast] in SP.
        assert (p = EmptyString) as ->.
        { destruct (string_dec p EmptyString) as [-> | Hp]; [reflexivity |].
          pose proof (rstrip_prefix_head s p t E Hp) as Hd.
          rewrite W in Hd. now apply starts_word_split in Hd. }
        assert (Ht : word t).
        { pose proof (split_ws_words s) as F. rewrite S in F.
          now inversion F. }
        exists EmptyString. cbn [String.append] in E |- *.
        rewrite rstrip_cons by (rewrite E; apply Ht).
        rewrite E. repeat split. now left.
      * rewrite last_word_cons, <- (last_word_cons t u us) in H.
        destruct (IH w H) as (p & E & K & SP).
        assert (Hp : p <> EmptyString).
        { apply split_ws_nonempty_prefix. rewrite SP. discriminate. }
        exists (String c p). rewrite rstrip_cons by now apply (Nonempty p).
        rewrite E. repeat split.
        -- apply word_boundary_cons; [exact K | congruence].
        -- cbn [Py.split_ws]. rewrite C.
           rewrite (rstrip_prefix_head s p w E Hp), W, SP. reflexivity.
    + destruct (Py.split_ws s) as [|u us] eqn:U.
      * cbn [last_word List.last] in H. injection H as <-.
        exists EmptyString. cbn [Py.rstrip String.append].
        rewrite (split_ws_empty_rstrip s U), C. repeat split. now left.
      * rewrite last_word_cons in H.
        destruct (IH w H) as (p & E & K & SP).
        assert (Hp : p <> EmptyString).
        { intros ->. cbn [String.append] in E.
          pose proof (starts_word_rstrip s ltac:(now apply (Nonempty "")))
            as Hd.
          rewrite E, W, (word_starts w Ww) in Hd. discriminate. }
        exists (String c p). rewrite rstrip_cons by now apply (Nonempty p).
        rewrite E. repeat split.
        -- apply word_boundary_cons; [exact K | congruence].
        -- cbn [Py.split_ws]. rewrite C.
           rewrite (rstrip_prefix_head s p w E Hp), W, SP. reflexivity.
Qed.

(** ** Boundary merger: the shared word is kept once *)

Lemma count_boundary_text (w ta tb : string) (others : list string)
    (space : bool) :
  last_word (Py.split_ws (Py.strip ta)) = Some w ->
  Py.split_ws (Py.strip tb) = w :: others ->
  Py.count w ta = 1%nat -> Py.count w tb = 1%nat ->
  Py.count w (boundary_text ta others space) = 1%nat.
Proof.
  intros La Hb Ca Cb.
  assert (Ww : word w).
  { pose proof (split_ws_words (Py.strip tb)) as F. rewrite Hb in F.
    now inversion F. }
  assert (CR : Py.count w (Py.join " " others) = 0%nat).
  { rewrite count_join by exact Ww.
    rewrite (count_by_words w tb Ww), <- split_ws_strip, Hb in Cb.
    rewrite occurrences_cons, count_self in Cb by apply Ww. lia. }
  assert (CA : Py.count w (Py.strip ta) = 1%nat).
  { now rewrite (count_by_words w _ Ww), split_ws_strip,
      <- (count_by_words w _ Ww). }
  unfold Py.strip in La. rewrite split_ws_rstrip in La.
  destruct (last_word_rstrip _ w La) as (p & E & K & _).
  fold (Py.strip ta) in E.
  unfold boundary_text. cbn zeta.
  set (R := Py.join " " others) in *.
  assert (Glue : Py.count w (Py.strip ta ++ R) = 1%nat).
  { rewrite E in CA |- *. rewrite append_assoc.
    destruct K as [-> | (p' & c & -> & C)].
    - cbn [String.append]. rewrite count_leading by apply Ww. lia.
    - rewrite append_assoc in CA |- *. cbn [String.append] in CA |- *.
      rewrite (count_split w p' _ c Ww C) in CA.
      rewrite (count_split w p' _ c Ww C).
      rewrite count_self in CA by apply Ww.
      rewrite count_leading by apply Ww. lia. }
  destruct space; [| exact Glue].
  destruct R as [|r0 R'] eqn:ER; [exact Glue |].
  change (Py.strip ta ++ " " ++ String r0 R')%string
    with (Py.strip ta ++ String " " (String r0 R'))%string.
  rewrite (count_split w _ _ " " Ww space_is_space). lia.
Qed.

(** C9, the claim as stated fails: the first two of these three entries
    are within the gap and share the word [end] at their boundary, and
    [end] occurs nowhere else in either text; but the merge goes on with
    the third entry, whose first word [y] is the last of the merged text,
    so that the single entry emitted holds [end] twice and ends with the
    third entry, not with the second. *)
Lemma chained_merge_repeats_boundary_word :
  last_word (Py.split_ws (Py.strip "x end")) = Some "end"%string
  /\ Py.split_ws (Py.strip "end y") = ["end"; "y"]%string
  /\ Py.count "end" "x end" = 1%nat
  /\ Py.count "end" "end y" = 1%nat
  /\ merge_end_start_entries [chain_first; chain_second; chain_third]
       300 true 50
     = Ok [timed "00:00:01,000" "00:00:04,000" "x end y end"]
  /\ Py.count "end" "x end y end" = 2%nat
  /\ end_time chain_second = Some "00:00:03,000"%string.
Proof. repeat split; reflexivity. Qed.

(** C9, amended: when the input of the boundary merger is exactly two
    entries within the gap, the first text ending with the word [w], the
    second starting with it, [w] occurring nowhere else in either text,
    the merger emits one entry, whose text holds [w] exactly once and
    whose end time is the second entry's.  In a longer list the merge may
    go on with the entries that follow. *)
Theorem boundary_word_kept_once (a b : SubtitleEntry) (gap : Z)
    (space : bool) (max_text_length : Z) (w ta tb ea sb eb : string)
    (others : list string) (end_a start_b : Z) :
  text a = Some ta -> end_time a = Some ea -> time_to_ms ea = Ok end_a ->
  text b = Some tb -> start_time b = Some sb ->
  time_to_ms sb = Ok start_b -> end_time b = Some eb ->
  (start_b - end_a <= gap)%Z ->
  last_word (Py.split_ws (Py.strip ta)) = Some w ->
  Py.split_ws (Py.strip tb) = w :: others ->
  Py.count w ta = 1%nat -> Py.count w tb = 1%nat ->
  merge_end_start_entries [a; b] gap space max_text_length
  = Ok [mk_entry (index a) (start_time a) (Some eb)
                 (Some (boundary_text ta others space))]
  /\ Py.count w (boundary_text ta others space) = 1%nat.
Proof.
  intros Ta Ea Tea Tb Sb Tsb Eb Gap La Hb Ca Cb.
  split; [| now apply (count_boundary_text w ta tb)].
  unfold merge_end_start_entries.
  cbn [List.length end_start_loop Nat.ltb Nat.leb list_index nth_error bind
       end_start_scan Nat.add].
  rewrite Ea, Sb. cbn [getitem bind]. rewrite Tea, Tsb. cbn [bind].
  replace (gap <? start_b - end_a)%Z with false
    by (symmetry; apply Z.ltb_ge; lia).
  rewrite Ta, Tb. cbn [getitem bind]. rewrite La, Hb.
  rewrite String.eqb_refl, Eb. cbn [getitem bind].
  unfold boundary_text, set_text, set_end_time.
  cbn [index start_time end_time text].
  destruct others as [|u us]; cbn [List.length Nat.ltb Nat.leb];
    reflexivity.
Qed.

Lemma boundary_word_kept_once_witness :
  merge_end_start_entries [first_half; second_half] 300 true 50
  = Ok [timed "00:00:01,000" "00:00:03,000" "this is the end of it"]
  /\ Py.count "end" "this is the end of it" = 1%nat.
Proof.
  apply (boundary_word_kept_once first_half second_half 300 true 50 "end"
           "this is the end" "end of it" "00:00:02,000" "00:00:02,100"
           "00:00:03,000" ["of"; "it"]%string 2000 2100);
    first [reflexivity | simpl; lia].
Defined.

(** ** Decimal strings *)









(** ** Time codec: from milliseconds and back *)


















(** ** Parser: what a parsed entry holds *)





(** ** Serializer: layout and missing keys *)




Lemma entry_lines_incomplete (e : SubtitleEntry) :
  ~ complete e -> entry_lines e = Raise KeyError.
Proof.
  unfold complete, entry_lines.
  destruct e as [[i|] [s|] [t|] [x|]]; cbn; intros N; try reflexivity.
  exfalso. apply N. repeat split; discriminate.
Qed.





(** ** Lines *)





Lemma splitlines_from_last (l cur : string) :
  unbroken l -> (cur ++ l)%string <> EmptyString ->
  Py.splitlines_from l cur = [(cur ++ l)%string].
Proof.
  unfold unbroken. revert cur. induction l as [|c l IH]; intros cur U N.
  - rewrite append_nil_r in *. cbn. destruct cur; [congruence | reflexivity].
  - cbn [Py.all_chars] in U. apply andb_true_iff in U as [Uc U].
    apply negb_true_iff in Uc. cbn [Py.splitlines_from]. rewrite Uc.
    rewrite (IH _ U); rewrite append_assoc; [reflexivity |].
    cbn [String.append]. destruct cur; discriminate.
Qed.



(** ** Trimming *)
















(** ** The index line and the time line *)













(** ** Reading back what the serializer wrote *)











(** ** The text of a serialized list, line by line *)









(** ** Renumbering *)






(** ** Filters *)


Lemma filter_length_le {A : Type} (p : A -> bool) (l : list A) :
  (List.length (filter p l) <= List.length l)%nat.
Proof.
  induction l as [|x xs IH]; [auto |]. cbn [filter].
  destruct (p x); cbn [List.length]; lia.
Qed.

Lemma filter_r_length {A : Type} (keep : A -> result bool) (l : list A) :
  forall out, filter_r keep l = Ok out ->
              (List.length out <= List.length l)%nat.
Proof.
  induction l as [|x xs IH]; intros out H.
  - injection H as <-. auto.
  - cbn [filter_r] in H. inv_bind H. injection H as <-.
    specialize (IH _ eq_refl).
    match goal with
    | |- context [if ?b then _ else _] => destruct b
    end; cbn [List.length]; lia.
Qed.

Lemma filter_r_fuel {A : Type} (keep : A -> result bool) (l : list A) :
  (forall x, keep x <> NoFuel) -> filter_r keep l <> NoFuel.
Proof.
  intros K. induction l as [|x xs IH]; [discriminate |].
  cbn [filter_r]. specialize (K x).
  destruct (keep x); cbn [bind]; [| discriminate | congruence].
  destruct (filter_r keep xs); cbn [bind]; congruence.
Qed.










Lemma time_to_ms_empty : time_to_ms EmptyString = Raise ValueError.
Proof. reflexivity. Qed.






